(** * CoinMind chat endpoint: a shallow embedding of [src/app/api/chat/route.ts]

    The route handler [POST] and its helper [handleFinancialQueryWithLLM] are
    embedded as programs of a small state-and-exception monad.  Everything the
    handler imports from other modules (the Gemini client, the ledger and
    profile services, the currency utilities, the language detector) is a
    collaborator: a field of the record [Collaborators], free to answer or to
    throw, and free to answer differently as the request goes on.  Every call
    of an awaited collaborator is written to a trace, so that statements such
    as "the ledger is never called" are statements about a run.

    Conventions of the embedding:
    - a number is a binary64 float, with the primitive operations of the
      kernel; a string is the sequence of bytes of its UTF-8 encoding, and
      white space is what [\s] and [trim] take for it: the twenty-five
      WhiteSpace and LineTerminator code points of the language;
    - a prompt is kept as the template it instantiates together with the
      values substituted into it, not as the rendered text;
    - the ledger is the list of records that [createTransaction] accepted; a
      call that throws leaves it as it was;
    - the body of a request can be read once: [POST] reads it at line 125,
      so the second [request.json()], at line 155 of the preview phase,
      rejects with a [TypeError];
    - the rendering of a number by a template literal is left abstract, as
      [JSON.parse] is;
    - calls of the logger are left out: they return nothing the handler reads
      and are taken not to throw. *)

From Stdlib Require Import String Ascii List ZArith Bool Lia.
From Stdlib Require Import Floats DecimalString.
Import ListNotations.
Open Scope string_scope.

(** ** JavaScript values used by the handler *)

Module JS.

(** A JavaScript number is an IEEE 754 binary64 value. *)
Definition number := float.

Definition Math_abs (x : number) : number := PrimFloat.abs x.
Definition neg (x : number) : number := PrimFloat.opp x.
Definition lt (x y : number) : bool := PrimFloat.ltb x y.
Definition gt (x y : number) : bool := PrimFloat.ltb y x.
Definition div (x y : number) : number := PrimFloat.div x y.
Definition add (x y : number) : number := PrimFloat.add x y.
Definition sub (x y : number) : number := PrimFloat.sub x y.

(** [x || 0] on a value that is a number or [undefined]: the falsy numbers
    are [0], [-0] and [NaN]. *)
Definition truthy_number (x : number) : bool :=
  negb (PrimFloat.eqb x 0%float || PrimFloat.is_nan x).

Definition orZero (x : option number) : number :=
  match x with
  | Some v => if truthy_number v then v else 0%float
  | None => 0%float
  end.

(** [s || d] on a value that is a string or [undefined]: the empty string is
    falsy. *)
Definition orString (s : option string) (d : string) : string :=
  match s with
  | Some EmptyString => d
  | Some v => v
  | None => d
  end.

Definition truthy_string (s : option string) : bool :=
  match s with
  | Some (String _ _) => true
  | _ => false
  end.

(** A string is the sequence of bytes of its UTF-8 encoding.  The texts the
    handler searches for are ASCII, and a search for ASCII text finds the same
    occurrences in the bytes as in the characters. *)
Definition nl : string := String "010"%char EmptyString.

(** [s.startsWith(p)]. *)
Definition startsWith (s p : string) : bool := String.prefix p s.

(** [s.includes(p)]: [p] occurs somewhere in [s]. *)
Fixpoint includes (s p : string) : bool :=
  startsWith s p ||
  match s with
  | EmptyString => false
  | String _ rest => includes rest p
  end.

Fixpoint drop (n : nat) (s : string) : string :=
  match n, s with
  | O, _ => s
  | S n', String _ rest => drop n' rest
  | S _, EmptyString => EmptyString
  end.

(** The text after the first occurrence of [marker] in [s]: the group that a
    regular expression made of [marker] followed by a greedy "any characters"
    group captures, [None] when there is no match. *)
Fixpoint matchAfter (marker s : string) : option string :=
  if startsWith s marker then Some (drop (String.length marker) s)
  else match s with
       | EmptyString => None
       | String _ rest => matchAfter marker rest
       end.

(** The text before the first occurrence of [marker] in [s]. *)
Fixpoint before (marker s : string) : string :=
  if startsWith s marker then EmptyString
  else match s with
       | EmptyString => EmptyString
       | String c rest => String c (before marker rest)
       end.

(** White space, as [\s] and [trim] see it: the WhiteSpace and LineTerminator
    code points of the language.  In UTF-8 six of them take one byte (tab,
    line feed, vertical tab, form feed, carriage return and space), one takes
    two bytes (U+00A0) and eighteen take three (U+1680, U+2000 to U+200A,
    U+2028, U+2029, U+202F, U+205F, U+3000 and U+FEFF). *)
Definition isSpace1 (a : ascii) : bool :=
  let x := nat_of_ascii a in
  (Nat.leb 9 x && Nat.leb x 13) || Nat.eqb x 32.

Definition isSpace2 (a b : ascii) : bool :=
  Nat.eqb (nat_of_ascii a) 194 && Nat.eqb (nat_of_ascii b) 160.

Definition isSpace3 (a b c : ascii) : bool :=
  let x := nat_of_ascii a in
  let y := nat_of_ascii b in
  let z := nat_of_ascii c in
  (Nat.eqb x 225 && Nat.eqb y 154 && Nat.eqb z 128)
  || (Nat.eqb x 226 && Nat.eqb y 128 &&
      ((Nat.leb 128 z && Nat.leb z 138) || Nat.eqb z 168 || Nat.eqb z 169
       || Nat.eqb z 175))
  || (Nat.eqb x 226 && Nat.eqb y 129 && Nat.eqb z 159)
  || (Nat.eqb x 227 && Nat.eqb y 128 && Nat.eqb z 128)
  || (Nat.eqb x 239 && Nat.eqb y 187 && Nat.eqb z 191).

(** [s.trimStart()], and what a greedy [\s*] consumes at the start of [s]. *)
Fixpoint trimStart (s : string) : string :=
  match s with
  | EmptyString => EmptyString
  | String a r1 =>
      if isSpace1 a then trimStart r1
      else match r1 with
           | EmptyString => s
           | String b r2 =>
               if isSpace2 a b then trimStart r2
               else match r2 with
                    | EmptyString => s
                    | String c r3 => if isSpace3 a b c then trimStart r3 else s
                    end
           end
  end.

(** [s.trimEnd()]: [s] up to the point from which it is white space only. *)
Fixpoint trimEnd (s : string) : string :=
  match s with
  | EmptyString => EmptyString
  | String c rest =>
      match trimStart s with
      | EmptyString => EmptyString
      | _ => String c (trimEnd rest)
      end
  end.

Definition trim (s : string) : string := trimEnd (trimStart s).

Definition upper (c : ascii) : ascii :=
  let n := nat_of_ascii c in
  if Nat.leb 97 n && Nat.leb n 122 then ascii_of_nat (n - 32) else c.

(** [p] is a prefix of [s] up to the case of ASCII letters (the [i] flag). *)
Fixpoint startsWithIgnoreCase (s p : string) : bool :=
  match p, s with
  | EmptyString, _ => true
  | String a p', String b s' =>
      Ascii.eqb (upper a) (upper b) && startsWithIgnoreCase s' p'
  | String _ _, EmptyString => false
  end.

(** A decimal rendering of a counter, as a template literal prints it. *)
Definition showNat (n : nat) : string := NilZero.string_of_uint (Nat.to_uint n).

End JS.

(** ** Data model *)

Import JS.

Definition UserId := string.

(** A [Date], by its time value in milliseconds. *)
Definition Date := Z.

(** [new Date(t).toISOString()] on a number [t] throws a [RangeError] when
    [t] is not a time value: when it is [NaN], infinite, or beyond 8.64e15
    milliseconds on either side of the epoch. *)
Definition validTimeValue (t : number) : bool :=
  PrimFloat.leb (Math_abs t) 8640000000000000%float.

Inductive TransactionType := income | expense.

(** [fileInfo] and [previousFile] of the request body. *)
Module FileInfo.
Record t := mk {
  name : string;
  size : number;
  type : string;
  lastModified : number }.
End FileInfo.

(** What [parseTransactionText] resolves to; every field may be absent. *)
Module ParsedTransaction.
Record t := mk {
  description : option string;
  amount : option number;
  currency : option string;
  category : option string;
  type : option TransactionType;
  date : option Date;
  vendor : option string }.
End ParsedTransaction.

(** [transactionInfo] of the default path (lines 477-495). *)
Module TransactionInfo.
Record t := mk {
  description : string;
  amount : number;
  currency : option string;
  category : string;
  type : TransactionType;
  date : option Date;
  vendor : option string }.
End TransactionInfo.

(** A row of [result.transactions], as [parseCSVWithGemini] resolves it. *)
Module CsvTransaction.
Record t := mk {
  description : string;
  amount : number;
  category : string;
  date : option Date;
  type : TransactionType;
  vendor : option string }.
End CsvTransaction.

Module CsvResult.
Record t := mk {
  (* A [None] row is a [null] element of the array. *)
  transactions : list (option CsvTransaction.t);
  preview : string }.
End CsvResult.

(** [newTransaction] of the confirm phase (lines 368-380). *)
Module NewTransaction.
Record t := mk {
  description : string;
  originalAmount : number;
  originalCurrency : string;
  convertedAmount : number;
  convertedCurrency : string;
  conversionRate : number;
  conversionFee : number;
  category : string;
  date : option Date;
  type : TransactionType;
  vendor : string }.
End NewTransaction.

(** The object handed to [services.transactions.createTransaction]. *)
Module CreateInput.
Record t := mk {
  amount : number;
  currency : string;
  description : string;
  category : string;
  type : option TransactionType;
  date : option Date;
  vendor : string }.
End CreateInput.

(** An element of what [getTransactions] resolves to; the handler reads its
    [amount] only. *)
Module StoredTransaction.
Record t := mk { amount : option number }.
End StoredTransaction.

Module Profile.
Record t := mk { defaultCurrency : option string }.
End Profile.

(** The three local variables that hold a conversion's result. *)
Module Conversion.
Record t := mk {
  finalAmount : number;
  finalCurrency : string;
  conversionRate : number }.
End Conversion.

(** The placeholders of [SYSTEM_PROMPT] (lines 16-47). *)
Module Snapshot.
Record t := mk {
  balance : string;
  income : string;
  expenses : string;
  transactionCount : nat;
  defaultCurrency : string }.
End Snapshot.

(** The prompts sent to [model.generateContent], each by the template it is
    an instance of and the values substituted into it. *)
Inductive Prompt :=
| IntentPrompt (message userLanguage : string)                  (* lines 52-78 *)
| DuplicateAnalysisPrompt (fileInfo previousFile : FileInfo.t)  (* lines 178-202 *)
| DuplicateMessagePrompt (fileInfo : FileInfo.t) (aiExplanation : string)
                                                                (* lines 219-229 *)
| TransactionSuccessPrompt (snapshot : Snapshot.t) (message : string)
    (info : TransactionInfo.t) (originalAmountStr : string)     (* lines 572-595 *)
| TransactionErrorPrompt (snapshot : Snapshot.t) (message : string)
                                                                (* lines 613-628 *)
| GeneralPrompt (snapshot : Snapshot.t) (message : string)      (* lines 645-656 *)
| FallbackPrompt (message : string).                            (* line 727 *)

(** What line 155 takes from the request body: [fileInfo] and
    [previousFile]. *)
Module ImportBody.
Record t := mk {
  fileInfo : option FileInfo.t;
  previousFile : option FileInfo.t }.
End ImportBody.

(** The first read of the request body (line 125): [message] is [None] when
    the field is absent or is not a string. *)
Module RequestBody.
Record t := mk {
  message : option string;
  type : option string }.
End RequestBody.

(** The [data] object of a successful response. *)
Module Data.
Record t := mk {
  message : string;
  type : option string;
  transactionAdded : option bool;
  isDuplicate : option bool;
  requiresConfirmation : option bool;
  suggestions : option (list string);
  fileInfo : option FileInfo.t }.
End Data.

Inductive Body :=
| ErrorBody (error : string)               (* { error } *)
| FailureBody (error : string)             (* { success: false, error } *)
| SuccessBody (data : Data.t).             (* { success: true, data } *)

Module NextResponse.
Record t := mk { status : nat; body : Body }.
Definition json (b : Body) (status : nat) : t := mk status b.
End NextResponse.

(** What [JSON.parse] returns. *)
#[local] Set Warnings "-register-all".
Inductive JSONValue :=
| JNull
| JBool (b : bool)
| JNumber (n : number)
| JString (s : string)
| JArray (items : list JSONValue)
| JObject (members : list (string * JSONValue)).

(** What [handleFinancialQueryWithLLM] resolves to. *)
Module QueryAnalysis.
Record t := mk {
  isFinancial : bool;
  intent : string;
  response : string }.
End QueryAnalysis.

(** ** Effects: exceptions, the trace of collaborator calls, local variables *)

(** A thrown value: an [Error] object with its message, or anything else. *)
Inductive Exn :=
| Error (message : string)
| Thrown (value : string).

Inductive Outcome (A : Type) :=
| Ok (a : A)
| Throw (e : Exn).
Arguments Ok {A} a.
Arguments Throw {A} e.

Definition isOk {A} (r : Outcome A) : bool :=
  match r with Ok _ => true | Throw _ => false end.

(** The awaited calls of the handler. *)
Inductive Call :=
| request_json
| generateContent (prompt : Prompt)
| parseCSVWithGemini (csvText : string)
| parseTransactionText (message : string)
| answerFinancialQuestion (userId : UserId) (message language : string)
| convertAmount (amount : number) (fromCurrency toCurrency : string)
| getServices
| getTransactions (userId : UserId) (limit : nat)
| findById (userId : UserId)
| createTransaction (userId : UserId) (input : CreateInput.t).

(** A call and whether it returned ([true]) or threw ([false]). *)
Record Event := { call : Call; returned : bool }.

(** What the collaborators can see: the ledger, as the list of records its
    [createTransaction] accepted, and the calls made so far, oldest first. *)
Record World := {
  ledger : list (UserId * CreateInput.t);
  trace : list Event }.

(** The handler's mutable local variables that are assigned inside a [try]
    block and read after it (lines 326-327 and 465-466). *)
Record State := {
  world : World;
  responseText : string;
  transactionAdded : bool;
  importedCount : nat;
  failedCount : nat }.

Definition M (A : Type) : Type := State -> Outcome A * State.

Definition ret {A} (a : A) : M A := fun s => (Ok a, s).

Definition throw {A} (e : Exn) : M A := fun s => (Throw e, s).

Definition bind {A B} (m : M A) (k : A -> M B) : M B :=
  fun s =>
    match m s with
    | (Ok a, s') => k a s'
    | (Throw e, s') => (Throw e, s')
    end.

(** [try { m } catch (e) { h e }]: the state at the throw is kept. *)
Definition tryCatch {A} (m : M A) (h : Exn -> M A) : M A :=
  fun s =>
    match m s with
    | (Ok a, s') => (Ok a, s')
    | (Throw e, s') => h e s'
    end.

(** A synchronous computation that may throw. *)
Definition lift {A} (r : Outcome A) : M A := fun s => (r, s).

Declare Scope route_scope.
Delimit Scope route_scope with route.
Notation "x <- m ;; k" := (bind m (fun x => k))
  (at level 61, m at next level, right associativity) : route_scope.
Notation "m ;; k" := (bind m (fun _ => k))
  (at level 61, right associativity) : route_scope.
Open Scope route_scope.

Definition record (c : Call) (ok : bool) (w : World) : World :=
  {| ledger := ledger w; trace := trace w ++ [{| call := c; returned := ok |}] |}.

Definition persist (userId : UserId) (input : CreateInput.t) (w : World) : World :=
  {| ledger := ledger w ++ [(userId, input)]; trace := trace w |}.

Definition withWorld (f : World -> World) (s : State) : State :=
  {| world := f (world s);
     responseText := responseText s;
     transactionAdded := transactionAdded s;
     importedCount := importedCount s;
     failedCount := failedCount s |}.

(** [await c]: the collaborator answers from the world it sees, and the call
    goes to the trace. *)
Definition await {A} (c : Call) (answer : World -> Outcome A) : M A :=
  fun s =>
    let r := answer (world s) in
    (r, withWorld (record c (isOk r)) s).

Definition set_responseText (t : string) : M unit :=
  fun s => (Ok tt,
    {| world := world s; responseText := t;
       transactionAdded := transactionAdded s;
       importedCount := importedCount s; failedCount := failedCount s |}).

Definition set_transactionAdded (b : bool) : M unit :=
  fun s => (Ok tt,
    {| world := world s; responseText := responseText s;
       transactionAdded := b;
       importedCount := importedCount s; failedCount := failedCount s |}).

Definition set_importedCount (n : nat) : M unit :=
  fun s => (Ok tt,
    {| world := world s; responseText := responseText s;
       transactionAdded := transactionAdded s;
       importedCount := n; failedCount := failedCount s |}).

Definition set_failedCount (n : nat) : M unit :=
  fun s => (Ok tt,
    {| world := world s; responseText := responseText s;
       transactionAdded := transactionAdded s;
       importedCount := importedCount s; failedCount := n |}).

Definition get {A} (f : State -> A) : M A := fun s => (Ok (f s), s).

(** [for (const x of xs) { body x }]. *)
Fixpoint forEach {A} (xs : list A) (body : A -> M unit) : M unit :=
  match xs with
  | [] => ret tt
  | x :: rest => body x ;; forEach rest body
  end.

(** ** Collaborators *)

(** The imported functions and services.  Each awaited one answers from the
    world it is called in, so it may fail at one call and not at the next.
    The formatters, the language detector and [JSON.parse] are synchronous
    and depend on their arguments only; each may throw.  [Number_toString]
    is the text a template literal prints for a number. *)
Record Collaborators := {
  GEMINI_API_KEY : option string;
  JSON_parse : string -> Outcome JSONValue;
  Number_toString : number -> string;
  on_generateContent : World -> Prompt -> Outcome string;
  on_parseCSVWithGemini : World -> string -> Outcome CsvResult.t;
  on_parseTransactionText : World -> string -> Outcome ParsedTransaction.t;
  on_answerFinancialQuestion : World -> UserId -> string -> string -> Outcome string;
  on_convertAmount : World -> number -> string -> string -> Outcome number;
  on_getServices : World -> Outcome UserId;
  on_getTransactions : World -> UserId -> nat -> Outcome (list StoredTransaction.t);
  on_findById : World -> UserId -> Outcome (option Profile.t);
  on_createTransaction : World -> UserId -> CreateInput.t -> Outcome unit;
  detectLanguage : string -> Outcome string;
  CurrencyFormatter_format : number -> string -> Outcome string;
  CurrencyFormatter_formatWithSymbol : number -> string -> Outcome string }.

(** ** The request body *)

(** [request.json()] at line 155.  The handler has read the body at line
    125, and the body of a request can be consumed once: the second read
    rejects with a [TypeError]. *)
Definition request_json_again : M ImportBody.t :=
  await request_json
    (fun _ => Throw (Error "Body is unusable: Body has already been read")).

(** ** The intent classifier (lines 50-121) *)

Definition fence : string := "```".

(** The first group of [text.match] on the code-fence expression of line 88:
    an opening fence, an optional [json] tag, white space, then the shortest
    text that is followed by an optional line feed and a closing fence.  The
    leftmost fence opens the match, and there is one exactly when a second
    fence follows it. *)
Definition codeBlockMatch (text : string) : option string :=
  match matchAfter fence text with
  | None => None
  | Some opened =>
      if includes opened fence then
        let tagged := if startsWith opened "json" then drop 4 opened else opened in
        let inner := trimStart tagged in
        let upToLineFeed := before (nl ++ fence) inner in
        let upToFence := before fence inner in
        Some (if Nat.ltb (String.length upToLineFeed) (String.length upToFence)
              then upToLineFeed else upToFence)
      else None
  end.

(** Lines 86-91: the text handed to [JSON.parse]. *)
Definition jsonTextOf (text : string) : string :=
  match codeBlockMatch text with
  | Some group => trim group
  | None => text
  end.

Fixpoint lookup (key : string) (members : list (string * JSONValue)) : option JSONValue :=
  match members with
  | [] => None
  | (k, v) :: rest => if String.eqb k key then Some v else lookup key rest
  end.

(** [parsed.key]: a [TypeError] on [null], [undefined] on a value that has
    no such property. *)
Definition property (parsed : JSONValue) (key : string) : Outcome (option JSONValue) :=
  match parsed with
  | JNull => Throw (Error "Cannot read properties of null")
  | JObject members => Ok (lookup key members)
  | _ => Ok None
  end.

Definition unknownIntent : QueryAnalysis.t :=
  {| QueryAnalysis.isFinancial := false;
     QueryAnalysis.intent := "unknown";
     QueryAnalysis.response := "" |}.

Section Route.

Variable E : Collaborators.

Definition model_generateContent (prompt : Prompt) : M string :=
  await (generateContent prompt) (fun w => on_generateContent E w prompt).

(** The inner [try] block (lines 85-105): [Some] is its [return]. *)
Definition parseAnalysis (text : string) : M (option QueryAnalysis.t) :=
  tryCatch
    (let jsonText := jsonTextOf text in
     parsed <- lift (JSON_parse E jsonText) ;;
     isFinancial <- lift (property parsed "isFinancial") ;;
     match isFinancial with
     | Some (JBool b) =>
         intent <- lift (property parsed "intent") ;;
         match intent with
         | Some (JString i) =>
             ret (Some {| QueryAnalysis.isFinancial := b;
                          QueryAnalysis.intent := i;
                          QueryAnalysis.response := "" |})
         | _ => ret None
         end
     | _ => ret None
     end)
    (fun parseError => ret None).

Definition handleFinancialQueryWithLLM (message userLanguage : string)
  : M QueryAnalysis.t :=
  tryCatch
    (response <- model_generateContent (IntentPrompt message userLanguage) ;;
     let text := trim response in
     accepted <- parseAnalysis text ;;
     match accepted with
     | Some analysis => ret analysis
     | None => ret unknownIntent
     end)
    (fun error => ret unknownIntent).

(** *** Shared helpers of [POST] *)

(** [profile?.defaultCurrency || "USD"]. *)
Definition defaultCurrencyOf (profile : option Profile.t) : string :=
  orString
    match profile with
    | Some p => Profile.defaultCurrency p
    | None => None
    end
    "USD".

Definition services_transactions_createTransaction
    (userId : UserId) (input : CreateInput.t) : M unit :=
  fun s =>
    let r := on_createTransaction E (world s) userId input in
    (r, withWorld
          (fun w => record (createTransaction userId input) (isOk r)
                      (if isOk r then persist userId input w else w)) s).

Definition json200 (d : Data.t) : NextResponse.t :=
  NextResponse.json (SuccessBody d) 200.

(** *** Preview phase: [type === "csv_import"] (lines 150-299) *)

Definition csvImportMarker : string :=
  "Please analyze and import this spreadsheet file data:" ++ nl ++ nl.

Definition duplicateAnalysisPrompt
    (fileInfo : option FileInfo.t) (previousFile : FileInfo.t) : Outcome Prompt :=
  match fileInfo with
  | None => Throw (Error "Cannot read properties of undefined (reading 'name')")
  | Some f =>
      if validTimeValue (FileInfo.lastModified f)
         && validTimeValue (FileInfo.lastModified previousFile)
      then Ok (DuplicateAnalysisPrompt f previousFile)
      else Throw (Error "Invalid time value")
  end.

(** [duplicateAnalysis.replace(/^DUPLICATE:\s*/i, '').trim()]. *)
Definition aiExplanationOf (duplicateAnalysis : string) : string :=
  trim (if startsWithIgnoreCase duplicateAnalysis "DUPLICATE:"
        then trimStart (drop 10 duplicateAnalysis)
        else duplicateAnalysis).

Definition fallbackMessage (aiExplanation : string) (f : FileInfo.t) : string :=
  "⚠️ **Duplicate File Detected**" ++ nl ++ nl ++
  aiExplanation ++ nl ++ nl ++
  "**File Details:**" ++ nl ++
  "- Name: " ++ FileInfo.name f ++ nl ++
  "- Size: " ++ Number_toString E (FileInfo.size f) ++ " bytes" ++ nl ++
  "- Type: " ++ FileInfo.type f ++ nl ++ nl ++
  "**Recommendation:** Please select a different file or wait a moment before uploading the same file again to avoid duplicate transactions.".

Definition confirmationMessage (preview : string) : string :=
  "📄 **Spreadsheet Analysis Complete**" ++ nl ++ nl ++
  preview ++ nl ++ nl ++
  "Would you like me to import these transactions to your account?" ++ nl ++ nl ++
  "**Click " ++ String "034"%char "Confirm" ++ String "034"%char
  " to import or " ++ String "034"%char "Cancel" ++ String "034"%char " to abort.**".

Definition duplicateData (message : string) : Data.t :=
  {| Data.message := message;
     Data.type := Some "duplicate_detected";
     Data.transactionAdded := None;
     Data.isDuplicate := Some true;
     Data.requiresConfirmation := None;
     Data.suggestions := None;
     Data.fileInfo := None |}.

(** Lines 176-211: the duplicate analysis, [""] when there is no previous
    file or when the model call fails. *)
Definition analyzeDuplicate (body : ImportBody.t) : M string :=
  match ImportBody.previousFile body with
  | Some previousFile =>
      duplicatePrompt <- lift (duplicateAnalysisPrompt (ImportBody.fileInfo body) previousFile) ;;
      tryCatch (model_generateContent duplicatePrompt) (fun error => ret "")
  | None => ret ""
  end.

(** Lines 214-266: the response to an upload classified as a duplicate. *)
Definition duplicateResponse (body : ImportBody.t) (duplicateAnalysis : string)
  : M NextResponse.t :=
  let aiExplanation := aiExplanationOf duplicateAnalysis in
  match ImportBody.fileInfo body with
  | None => throw (Error "Cannot read properties of undefined (reading 'name')")
  | Some f =>
      tryCatch
        (duplicateMessage <- model_generateContent (DuplicateMessagePrompt f aiExplanation) ;;
         ret (json200 (duplicateData duplicateMessage)))
        (fun _ => ret (json200 (duplicateData (fallbackMessage aiExplanation f))))
  end.

Definition csvImport (message : string) : M NextResponse.t :=
  tryCatch
    (body <- request_json_again ;;
     match matchAfter csvImportMarker message with
     | None =>
         ret (NextResponse.json (FailureBody "Invalid CSV import request format") 400)
     | Some csvText =>
         duplicateAnalysis <- analyzeDuplicate body ;;
         if includes duplicateAnalysis "DUPLICATE"
         then duplicateResponse body duplicateAnalysis
         else
           result <- await (parseCSVWithGemini csvText)
                       (fun w => on_parseCSVWithGemini E w csvText) ;;
           ret (json200
                  {| Data.message := confirmationMessage (CsvResult.preview result);
                     Data.type := Some "csv_preview";
                     Data.transactionAdded := None;
                     Data.isDuplicate := None;
                     Data.requiresConfirmation := Some true;
                     Data.suggestions := Some ["Confirm Import"; "Cancel Import"];
                     Data.fileInfo := ImportBody.fileInfo body |})
     end)
    (fun _ => ret (NextResponse.json (FailureBody "CSV import failed") 500)).

(** *** Confirm phase: [type === "csv_import_confirm"] (lines 302-438) *)

Definition csvCurrency : string := "USD".

(** Lines 336-365: the conversion of a row's amount. *)
Definition convertRow (defaultCurrency : string) (amount : number) : M Conversion.t :=
  if negb (String.eqb csvCurrency defaultCurrency) then
    tryCatch
      (converted <- await (convertAmount (Math_abs amount) csvCurrency defaultCurrency)
                      (fun w => on_convertAmount E w (Math_abs amount) csvCurrency defaultCurrency) ;;
       ret {| Conversion.finalAmount := if lt amount 0%float then neg converted else converted;
              Conversion.finalCurrency := defaultCurrency;
              Conversion.conversionRate := div converted (Math_abs amount) |})
      (fun conversionError =>
         ret {| Conversion.finalAmount := amount;
                Conversion.finalCurrency := csvCurrency;
                Conversion.conversionRate := 1%float |})
  else
    ret {| Conversion.finalAmount := amount;
           Conversion.finalCurrency := csvCurrency;
           Conversion.conversionRate := 1%float |}.

(** Lines 368-380. *)
Definition newTransactionOf (transaction : CsvTransaction.t) (c : Conversion.t)
  : NewTransaction.t :=
  {| NewTransaction.description := CsvTransaction.description transaction;
     NewTransaction.originalAmount := Math_abs (CsvTransaction.amount transaction);
     NewTransaction.originalCurrency := csvCurrency;
     NewTransaction.convertedAmount := Conversion.finalAmount c;
     NewTransaction.convertedCurrency := Conversion.finalCurrency c;
     NewTransaction.conversionRate := Conversion.conversionRate c;
     NewTransaction.conversionFee := 0%float;
     NewTransaction.category := CsvTransaction.category transaction;
     NewTransaction.date := CsvTransaction.date transaction;
     NewTransaction.type := CsvTransaction.type transaction;
     NewTransaction.vendor := orString (CsvTransaction.vendor transaction) "CSV Import" |}.

(** Lines 382-389: what of [newTransaction] goes to the ledger. *)
Definition createInputOf (n : NewTransaction.t) : CreateInput.t :=
  {| CreateInput.amount := NewTransaction.originalAmount n;
     CreateInput.currency := NewTransaction.originalCurrency n;
     CreateInput.description := NewTransaction.description n;
     CreateInput.category := NewTransaction.category n;
     CreateInput.type := None;
     CreateInput.date := NewTransaction.date n;
     CreateInput.vendor := NewTransaction.vendor n |}.

(** The body of the [for] loop (lines 331-403); reading a field of a [null]
    row throws a [TypeError]. *)
Definition importRow (userId : UserId) (defaultCurrency : string)
    (row : option CsvTransaction.t) : M unit :=
  tryCatch
    (transaction <- lift match row with
                         | Some t => Ok t
                         | None => Throw (Error "Cannot read properties of null (reading 'amount')")
                         end ;;
     conversion <- convertRow defaultCurrency (CsvTransaction.amount transaction) ;;
     let newTransaction := newTransactionOf transaction conversion in
     services_transactions_createTransaction userId (createInputOf newTransaction) ;;
     n <- get importedCount ;;
     set_importedCount (S n))
    (fun transactionError =>
       n <- get failedCount ;;
       set_failedCount (S n)).

Definition successMessage (importedCount failedCount : nat) : string :=
  "✅ **Spreadsheet Import Complete**" ++ nl ++ nl ++
  "Successfully imported **" ++ showNat importedCount ++ "** transactions" ++
  (if Nat.ltb 0 failedCount
   then nl ++ "⚠️ Failed to import " ++ showNat failedCount ++ " transactions"
   else "") ++
  nl ++ nl ++
  "Your transactions have been added to your account. You can view them in the dashboard.".

Definition successData (importedCount failedCount : nat) : Data.t :=
  {| Data.message := successMessage importedCount failedCount;
     Data.type := Some "csv_success";
     Data.transactionAdded := None;
     Data.isDuplicate := None;
     Data.requiresConfirmation := None;
     Data.suggestions := None;
     Data.fileInfo := None |}.

Definition csvConfirmMarker : string := "Process CSV import: ".

Definition csvImportConfirm (message : string) : M NextResponse.t :=
  tryCatch
    (match matchAfter csvConfirmMarker message with
     | None =>
         ret (NextResponse.json (FailureBody "Invalid CSV import confirmation format") 400)
     | Some csvText =>
         result <- await (parseCSVWithGemini csvText)
                     (fun w => on_parseCSVWithGemini E w csvText) ;;
         userId <- await getServices (on_getServices E) ;;
         profile <- await (findById userId) (fun w => on_findById E w userId) ;;
         let defaultCurrency := defaultCurrencyOf profile in
         set_importedCount 0 ;;
         set_failedCount 0 ;;
         forEach (CsvResult.transactions result) (importRow userId defaultCurrency) ;;
         imported <- get importedCount ;;
         failed <- get failedCount ;;
         ret (json200 (successData imported failed))
     end)
    (fun error =>
       ret (NextResponse.json
              (FailureBody ("CSV import failed: " ++
                            match error with
                            | Error message => message
                            | Thrown _ => "Unknown error"
                            end)) 500)).

(** *** Default path (lines 441-739) *)

(** [t.amount || 0]. *)
Definition amountOf (t : StoredTransaction.t) : number :=
  orZero (StoredTransaction.amount t).

Definition sumAmounts (ts : list StoredTransaction.t) : number :=
  fold_left (fun sum t => add sum (amountOf t)) ts 0%float.

(** Lines 445-453. *)
Definition incomeOf (transactions : list StoredTransaction.t) : number :=
  sumAmounts (filter (fun t => gt (amountOf t) 0%float) transactions).

Definition expensesOf (transactions : list StoredTransaction.t) : number :=
  Math_abs (sumAmounts (filter (fun t => lt (amountOf t) 0%float) transactions)).

(** Lines 473-496: a parsed transaction is acted on when it has an amount
    and a non-empty description. *)
Definition transactionInfoOf (p : ParsedTransaction.t) : option TransactionInfo.t :=
  match ParsedTransaction.amount p, ParsedTransaction.description p with
  | Some amount, Some (String c d) =>
      Some {| TransactionInfo.description := String c d;
              TransactionInfo.amount := amount;
              TransactionInfo.currency := ParsedTransaction.currency p;
              TransactionInfo.category := orString (ParsedTransaction.category p) "Other";
              TransactionInfo.type :=
                match ParsedTransaction.type p with
                | Some t => t
                | None => if gt amount 0%float then income else expense
                end;
              TransactionInfo.date := ParsedTransaction.date p;
              TransactionInfo.vendor := ParsedTransaction.vendor p |}
  | _, _ => None
  end.

(** Lines 469-506. *)
Definition detectTransaction (message : string) : M (option TransactionInfo.t) :=
  tryCatch
    (parsedTransaction <- await (parseTransactionText message)
                            (fun w => on_parseTransactionText E w message) ;;
     ret (transactionInfoOf parsedTransaction))
    (fun parseError => ret None).

(** Lines 518-550: the conversion of an entered amount. *)
Definition convertEntry (defaultCurrency transactionCurrency : string) (amount : number)
  : M Conversion.t :=
  if negb (String.eqb transactionCurrency defaultCurrency) then
    tryCatch
      (converted <- await (convertAmount amount transactionCurrency defaultCurrency)
                      (fun w => on_convertAmount E w amount transactionCurrency defaultCurrency) ;;
       ret {| Conversion.finalAmount := converted;
              Conversion.finalCurrency := defaultCurrency;
              Conversion.conversionRate := div converted amount |})
      (fun conversionError =>
         ret {| Conversion.finalAmount := amount;
                Conversion.finalCurrency := transactionCurrency;
                Conversion.conversionRate := 1%float |})
  else
    ret {| Conversion.finalAmount := amount;
           Conversion.finalCurrency := transactionCurrency;
           Conversion.conversionRate := 1%float |}.

(** Lines 554-562. *)
Definition entryInputOf (info : TransactionInfo.t) (transactionCurrency : string)
  : CreateInput.t :=
  {| CreateInput.amount := TransactionInfo.amount info;
     CreateInput.currency := transactionCurrency;
     CreateInput.description := TransactionInfo.description info;
     CreateInput.category := TransactionInfo.category info;
     CreateInput.type := Some (TransactionInfo.type info);
     CreateInput.date := TransactionInfo.date info;
     CreateInput.vendor := orString (TransactionInfo.vendor info) "Unknown" |}.

Definition fixedErrorMessage : string :=
  "Sorry, there was an error adding the transaction. Please try again.".

(** Lines 612-638: the [catch] block of the transaction entry. *)
Definition composeApology (snapshot : Snapshot.t) (message : string) : M unit :=
  tryCatch
    (text <- model_generateContent (TransactionErrorPrompt snapshot message) ;;
     set_responseText text)
    (fun _ => set_responseText fixedErrorMessage).

(** Lines 508-640, for a detected transaction.  [snapshot] holds the values
    computed before the entry; the success prompt counts the new transaction
    and names the default currency read inside the [try] block. *)
Definition addTransaction (userId : UserId) (snapshot : Snapshot.t) (message : string)
    (transactionInfo : TransactionInfo.t) : M unit :=
  tryCatch
    (profile <- await (findById userId) (fun w => on_findById E w userId) ;;
     let defaultCurrency := defaultCurrencyOf profile in
     let transactionCurrency :=
       orString (TransactionInfo.currency transactionInfo) defaultCurrency in
     conversion <- convertEntry defaultCurrency transactionCurrency
                     (TransactionInfo.amount transactionInfo) ;;
     services_transactions_createTransaction userId
       (entryInputOf transactionInfo transactionCurrency) ;;
     set_transactionAdded true ;;
     originalAmountStr <- lift (CurrencyFormatter_formatWithSymbol E
                                  (Math_abs (TransactionInfo.amount transactionInfo))
                                  transactionCurrency) ;;
     text <- model_generateContent
               (TransactionSuccessPrompt
                  {| Snapshot.balance := Snapshot.balance snapshot;
                     Snapshot.income := Snapshot.income snapshot;
                     Snapshot.expenses := Snapshot.expenses snapshot;
                     Snapshot.transactionCount := Snapshot.transactionCount snapshot + 1;
                     Snapshot.defaultCurrency := defaultCurrency |}
                  message transactionInfo originalAmountStr) ;;
     set_responseText text)
    (fun transactionError => composeApology snapshot message).

(** Lines 642-669. *)
Definition generalResponse (snapshot : Snapshot.t) (message : string) : M unit :=
  transactionAdded <- get transactionAdded ;;
  if negb transactionAdded then
    text <- model_generateContent (GeneralPrompt snapshot message) ;;
    set_responseText text
  else ret tt.

Definition answerData (financialAnswer : string) : Data.t :=
  {| Data.message := financialAnswer;
     Data.type := None;
     Data.transactionAdded := Some false;
     Data.isDuplicate := None;
     Data.requiresConfirmation := None;
     Data.suggestions := None;
     Data.fileInfo := None |}.

(** Lines 671-711: [Some] is the [return] of line 694. *)
Definition financialQuery (userId : UserId) (message : string)
  : M (option NextResponse.t) :=
  transactionAdded <- get transactionAdded ;;
  if negb transactionAdded then
    detectedLanguage <- lift (detectLanguage E message) ;;
    queryAnalysis <- handleFinancialQueryWithLLM message detectedLanguage ;;
    if QueryAnalysis.isFinancial queryAnalysis then
      tryCatch
        (detectedLanguage <- lift (detectLanguage E message) ;;
         financialAnswer <- await (answerFinancialQuestion userId message detectedLanguage)
                              (fun w => on_answerFinancialQuestion E w userId message detectedLanguage) ;;
         ret (Some (json200 (answerData financialAnswer))))
        (fun error => ret None)
    else ret None
  else ret None.

(** Lines 713-719. *)
Definition chatData (responseText : string) (transactionAdded : bool) : Data.t :=
  {| Data.message := responseText;
     Data.type := None;
     Data.transactionAdded := Some transactionAdded;
     Data.isDuplicate := None;
     Data.requiresConfirmation := None;
     Data.suggestions := None;
     Data.fileInfo := None |}.

Definition finalResponse : M NextResponse.t :=
  text <- get responseText ;;
  added <- get transactionAdded ;;
  ret (json200 (chatData text added)).

(** Lines 720-739: the response composed without the ledger. *)
Definition fallbackData (text : string) : Data.t :=
  {| Data.message := text;
     Data.type := None;
     Data.transactionAdded := None;
     Data.isDuplicate := None;
     Data.requiresConfirmation := None;
     Data.suggestions := None;
     Data.fileInfo := None |}.

Definition statelessFallback (message : string) : M NextResponse.t :=
  text <- model_generateContent (FallbackPrompt message) ;;
  ret (json200 (fallbackData text)).

(** Lines 442-462: the ledger and the profile are read and the snapshot is
    formatted. *)
Definition fetchSnapshot : M (UserId * Snapshot.t) :=
  userId <- await getServices (on_getServices E) ;;
  transactions <- await (getTransactions userId 1000)
                    (fun w => on_getTransactions E w userId 1000) ;;
  let income := incomeOf transactions in
  let expenses := expensesOf transactions in
  let totalBalance := sub income expenses in
  profile <- await (findById userId) (fun w => on_findById E w userId) ;;
  let defaultCurrency := defaultCurrencyOf profile in
  formattedBalance <- lift (CurrencyFormatter_format E totalBalance defaultCurrency) ;;
  formattedIncome <- lift (CurrencyFormatter_format E income defaultCurrency) ;;
  formattedExpenses <- lift (CurrencyFormatter_format E expenses defaultCurrency) ;;
  ret (userId,
       {| Snapshot.balance := formattedBalance;
          Snapshot.income := formattedIncome;
          Snapshot.expenses := formattedExpenses;
          Snapshot.transactionCount := List.length transactions;
          Snapshot.defaultCurrency := defaultCurrency |}).

(** Lines 642-719: what follows the transaction entry. *)
Definition conclude (userId : UserId) (snapshot : Snapshot.t) (message : string)
  : M NextResponse.t :=
  generalResponse snapshot message ;;
  answered <- financialQuery userId message ;;
  match answered with
  | Some response => ret response
  | None => finalResponse
  end.

(** Lines 464-719: what follows the snapshot inside the [try] block. *)
Definition respond (userId : UserId) (snapshot : Snapshot.t) (message : string)
  : M NextResponse.t :=
  set_responseText "" ;;
  set_transactionAdded false ;;
  transactionInfo <- detectTransaction message ;;
  match transactionInfo with
  | Some info => addTransaction userId snapshot message info
  | None => ret tt
  end ;;
  conclude userId snapshot message.

Definition defaultPath (message : string) : M NextResponse.t :=
  tryCatch
    (fetched <- fetchSnapshot ;;
     respond (fst fetched) (snd fetched) message)
    (fun dbError => statelessFallback message).

(** *** The handler (lines 123-753) *)

Definition POST (request : Outcome RequestBody.t) : M NextResponse.t :=
  tryCatch
    (body <- lift request ;;
     match RequestBody.message body with
     | None | Some EmptyString =>
         ret (NextResponse.json (ErrorBody "Message is required") 400)
     | Some message =>
         if negb (truthy_string (GEMINI_API_KEY E)) then
           ret (NextResponse.json
                  (ErrorBody "AI service not configured. Please set GEMINI_API_KEY environment variable.")
                  500)
         else
           match RequestBody.type body with
           | Some "csv_import" => csvImport message
           | Some "csv_import_confirm" => csvImportConfirm message
           | _ => defaultPath message
           end
     end)
    (fun error =>
       ret (NextResponse.json
              (FailureBody "Failed to process chat message. Please try again.") 500)).

End Route.

(** A request starts with nothing on the trace and the locals unset. *)
Definition start (w : World) : State :=
  {| world := w; responseText := ""; transactionAdded := false;
     importedCount := 0; failedCount := 0 |}.

Definition emptyWorld : World := {| ledger := []; trace := [] |}.

(** The state [s] with another value in [responseText]. *)
Definition setText (t : string) (s : State) : State :=
  {| world := world s; responseText := t;
     transactionAdded := transactionAdded s;
     importedCount := importedCount s; failedCount := failedCount s |}.

(** ** Reading a run *)

Open Scope list_scope.

(** The events a run added to the trace of the state it started from. *)
Definition since (s s' : State) : list Event :=
  skipn (List.length (trace (world s))) (trace (world s')).

Definition isCreate (e : Event) : bool :=
  match call e with
  | createTransaction _ _ => true
  | _ => false
  end.

Definition notCreate (e : Event) : bool := negb (isCreate e).

(** The records that the [createTransaction] calls of a trace handed to the
    ledger, and those of them that the ledger accepted. *)
Fixpoint attempted (evs : list Event) : list (UserId * CreateInput.t) :=
  match evs with
  | [] => []
  | {| call := createTransaction u i |} :: rest => (u, i) :: attempted rest
  | _ :: rest => attempted rest
  end.

Fixpoint accepted (evs : list Event) : list (UserId * CreateInput.t) :=
  match evs with
  | [] => []
  | {| call := createTransaction u i; returned := true |} :: rest => (u, i) :: accepted rest
  | _ :: rest => accepted rest
  end.

Fixpoint rejected (evs : list Event) : list (UserId * CreateInput.t) :=
  match evs with
  | [] => []
  | {| call := createTransaction u i; returned := false |} :: rest => (u, i) :: rejected rest
  | _ :: rest => rejected rest
  end.

(** The ledger calls a batch of rows asks for: one per row that is not
    [null], in the order of the rows. *)
Definition rowInput (transaction : CsvTransaction.t) : CreateInput.t :=
  {| CreateInput.amount := Math_abs (CsvTransaction.amount transaction);
     CreateInput.currency := "USD";
     CreateInput.description := CsvTransaction.description transaction;
     CreateInput.category := CsvTransaction.category transaction;
     CreateInput.type := None;
     CreateInput.date := CsvTransaction.date transaction;
     CreateInput.vendor := orString (CsvTransaction.vendor transaction) "CSV Import" |}.

Fixpoint rowInputs (userId : UserId) (rows : list (option CsvTransaction.t))
  : list (UserId * CreateInput.t) :=
  match rows with
  | [] => []
  | Some t :: rest => (userId, rowInput t) :: rowInputs userId rest
  | None :: rest => rowInputs userId rest
  end.

Fixpoint nullRows (rows : list (option CsvTransaction.t)) : nat :=
  match rows with
  | [] => 0
  | None :: rest => S (nullRows rest)
  | Some _ :: rest => nullRows rest
  end.

(** The calls that read the ledger and the profile. *)
Definition isFetch (e : Event) : bool :=
  match call e with
  | getServices | getTransactions _ _ | findById _ => true
  | _ => false
  end.

(** The fetch of lines 442-456 fails: the services, the transaction history
    or the profile cannot be read. *)
Definition fetchFails (E : Collaborators) (w : World) : Prop :=
  (exists e, on_getServices E w = Throw e) \/
  (exists userId e,
     on_getServices E w = Ok userId /\
     on_getTransactions E (record getServices true w) userId 1000 = Throw e) \/
  (exists userId transactions e,
     on_getServices E w = Ok userId /\
     on_getTransactions E (record getServices true w) userId 1000 = Ok transactions /\
     on_findById E
       (record (getTransactions userId 1000) true (record getServices true w))
       userId = Throw e).

(** The model call that asks for the apology of lines 613-628. *)
Definition isApology (e : Event) : bool :=
  match call e with
  | generateContent (TransactionErrorPrompt _ _) => true
  | _ => false
  end.

Definition isConversion (e : Event) : bool :=
  match call e with
  | convertAmount _ _ _ => true
  | _ => false
  end.

(** An [answerFinancialQuestion] call that returned. *)
Definition answered (e : Event) : bool :=
  match call e with
  | answerFinancialQuestion _ _ _ => returned e
  | _ => false
  end.

Definition notAnswered (e : Event) : bool := negb (answered e).

(** A [createTransaction] call that returned. *)
Definition persisted (e : Event) : bool := isCreate e && returned e.

(** The intent classifier's model call and the question-answering call. *)
Definition isQuestionHandling (e : Event) : bool :=
  match call e with
  | generateContent (IntentPrompt _ _) => true
  | answerFinancialQuestion _ _ _ => true
  | _ => false
  end.

Definition notQuestion (e : Event) : bool := negb (isQuestionHandling e).

Definition quiet (e : Event) : bool := notCreate e && notQuestion e.

(** [m] only appends to the trace, every event it appends satisfies [p], and
    the ledger grows by exactly the records its calls saw accepted. *)
Definition emits {A} (p : Event -> bool) (m : M A) : Prop :=
  forall s, exists evs,
    trace (world (snd (m s))) = trace (world s) ++ evs /\
    ledger (world (snd (m s))) = ledger (world s) ++ accepted evs /\
    forallb p evs = true.

(** A response has one of the three shapes the handler builds: 200 with
    [success: true], or 400 or 500 with an error. *)
Definition isSuccess (b : Body) : bool :=
  match b with SuccessBody _ => true | _ => false end.

Definition wellFormed (r : NextResponse.t) : bool :=
  if Nat.eqb (NextResponse.status r) 200 then isSuccess (NextResponse.body r)
  else (Nat.eqb (NextResponse.status r) 400 || Nat.eqb (NextResponse.status r) 500)
       && negb (isSuccess (NextResponse.body r)).

(** Every value [m] returns satisfies [P]. *)
Definition returns {A} (P : A -> Prop) (m : M A) : Prop :=
  forall s a s', m s = (Ok a, s') -> P a.

Definition enveloped (r : NextResponse.t) : Prop := wellFormed r = true.

Definition envelopedIfAny (o : option NextResponse.t) : Prop :=
  match o with Some r => wellFormed r = true | None => True end.

(** The calls one turn of the import loop makes for a row. *)
Definition rowCalls (userId : UserId) (defaultCurrency : string)
    (row : option CsvTransaction.t) : list Call :=
  match row with
  | None => []
  | Some t =>
      (if String.eqb csvCurrency defaultCurrency then []
       else [convertAmount (Math_abs (CsvTransaction.amount t)) csvCurrency
               defaultCurrency])
      ++ [createTransaction userId (rowInput t)]
  end.

(** A model call that did not return. *)
Definition noCompletion (e : Event) : bool :=
  match call e with
  | generateContent _ => negb (returned e)
  | _ => true
  end.

(** The world after the events [evs] of a run that started in [w]. *)
Definition worldAfter (w : World) (evs : list Event) : World :=
  {| ledger := ledger w ++ accepted evs; trace := trace w ++ evs |}.

(** The two prompts of the transaction entry: the success message and the
    apology. *)
Definition isEntryPrompt (p : Prompt) : bool :=
  match p with
  | TransactionSuccessPrompt _ _ _ _ | TransactionErrorPrompt _ _ => true
  | _ => false
  end.

(** A model call of general chat: the general prompt, or the prompt of the
    stateless fallback. *)
Definition isChat (e : Event) : bool :=
  match call e with
  | generateContent (GeneralPrompt _ _) | generateContent (FallbackPrompt _) => true
  | _ => false
  end.

Definition notChat (e : Event) : bool := negb (isChat e).

(** The general completion, returned. *)
Definition composedChat (e : Event) : bool :=
  match call e with
  | generateContent (GeneralPrompt _ _) => returned e
  | _ => false
  end.

(** The response [200 { success: true, data }] whose [data] holds a message
    and, when one is given, the [transactionAdded] flag, and nothing else. *)
Definition reply (message : string) (added : option bool) : NextResponse.t :=
  NextResponse.json
    (SuccessBody
       {| Data.message := message;
          Data.type := None;
          Data.transactionAdded := added;
          Data.isDuplicate := None;
          Data.requiresConfirmation := None;
          Data.suggestions := None;
          Data.fileInfo := None |})
    200.

(** A request is for the default path when its [type] is neither of the two
    import phases. *)
Definition isChatRequest (body : RequestBody.t) : Prop :=
  RequestBody.type body <> Some "csv_import"%string /\
  RequestBody.type body <> Some "csv_import_confirm"%string.

(** [error instanceof Error ? error.message : "Unknown error"]. *)
Definition errorText (e : Exn) : string :=
  match e with
  | Error message => message
  | Thrown _ => "Unknown error"%string
  end.

(** What the confirm phase needs before its loop cannot be had: the parser,
    the services or the profile throws [e]. *)
Definition confirmSetupFails (E : Collaborators) (w : World) (csvText : string)
    (e : Exn) : Prop :=
  on_parseCSVWithGemini E w csvText = Throw e \/
  (exists result,
     on_parseCSVWithGemini E w csvText = Ok result /\
     on_getServices E (record (parseCSVWithGemini csvText) true w) = Throw e) \/
  (exists result userId,
     on_parseCSVWithGemini E w csvText = Ok result /\
     on_getServices E (record (parseCSVWithGemini csvText) true w) = Ok userId /\
     on_findById E
       (record getServices true (record (parseCSVWithGemini csvText) true w))
       userId = Throw e).

(** The text holds a backtick. *)
Fixpoint hasTick (s : string) : bool :=
  match s with
  | EmptyString => false
  | String c rest => Ascii.eqb c "`"%char || hasTick rest
  end.

(** A body of the form [{ error }], with no [success] field. *)
Definition plainError (r : NextResponse.t) : bool :=
  match NextResponse.body r with
  | ErrorBody _ => true
  | _ => false
  end.

Definition notPlainError (r : NextResponse.t) : Prop := plainError r = false.

Definition notPlainErrorIfAny (o : option NextResponse.t) : Prop :=
  match o with Some r => plainError r = false | None => True end.

(** ** Concrete collaborators

    A handful of fixed collaborators, used to run the handler on concrete
    requests. *)

Module Scenario.

Open Scope string_scope.

Definition user : UserId := "user-1".

Definition quote : string := String "034"%char "".

(** The text [{"isFinancial":true,"intent":"balance_inquiry"}]. *)
Definition financialJson : string :=
  "{" ++ quote ++ "isFinancial" ++ quote ++ ":true," ++
  quote ++ "intent" ++ quote ++ ":" ++ quote ++ "balance_inquiry" ++ quote ++ "}".

(** [JSON.parse] on the few texts the scenarios feed it; anything else is a
    [SyntaxError]. *)
Definition parse (text : string) : Outcome JSONValue :=
  if String.eqb text financialJson then
    Ok (JObject [("isFinancial", JBool true); ("intent", JString "balance_inquiry")])
  else if String.eqb text "null" then Ok JNull
  else if String.eqb text "{}" then Ok (JObject [])
  else Throw (Error "Unexpected token").

(** The rendering of a number that is an integer of fewer than twenty-two
    digits, [NaN] or infinite; no scenario prints another one. *)
Definition showNumber (x : number) : string :=
  match Prim2SF x with
  | S754_zero _ => "0"
  | S754_infinity negative => if negative then "-Infinity" else "Infinity"
  | S754_nan => "NaN"
  | S754_finite negative m e =>
      let z := Z.shiftl (Zpos m) e in
      NilZero.string_of_int (Z.to_int (if negative then Z.opp z else z))
  end.

Definition collaborators
    (generate : World -> Prompt -> Outcome string)
    (parsedTransaction : Outcome ParsedTransaction.t)
    (create : CreateInput.t -> Outcome unit)
    (convert : number -> string -> string -> Outcome number)
    (defaultCurrency : option string)
    (history : Outcome (list StoredTransaction.t))
    (csv : CsvResult.t) : Collaborators :=
  {| GEMINI_API_KEY := Some "key";
     JSON_parse := parse;
     Number_toString := showNumber;
     on_generateContent := generate;
     on_parseCSVWithGemini := fun _ _ => Ok csv;
     on_parseTransactionText := fun _ _ => parsedTransaction;
     on_answerFinancialQuestion := fun _ _ _ _ => Ok "Your balance is 100 USD.";
     on_convertAmount := fun _ => convert;
     on_getServices := fun _ => Ok user;
     on_getTransactions := fun _ _ _ => history;
     on_findById := fun _ _ => Ok (Some {| Profile.defaultCurrency := defaultCurrency |});
     on_createTransaction := fun _ _ => create;
     detectLanguage := fun _ => Ok "en";
     CurrencyFormatter_format := fun _ currency => Ok currency;
     CurrencyFormatter_formatWithSymbol := fun _ currency => Ok currency |}.

Definition noCsv : CsvResult.t :=
  {| CsvResult.transactions := []; CsvResult.preview := "" |}.

(** A completion service that answers every prompt by the kind of prompt. *)
Definition answers (_ : World) (p : Prompt) : Outcome string :=
  match p with
  | IntentPrompt _ _ => Ok "I cannot tell."
  | DuplicateAnalysisPrompt _ _ =>
      Ok "NEW_FILE: the names differ, so this is not a DUPLICATE of the last upload."
  | DuplicateMessagePrompt _ _ => Ok "This file was already uploaded."
  | TransactionSuccessPrompt _ _ _ _ => Ok "Recorded your lunch."
  | TransactionErrorPrompt _ _ => Ok "Sorry, I could not save that. Please try again."
  | GeneralPrompt _ _ => Ok "Here is some general advice."
  | FallbackPrompt _ => Ok "I can help with your finances."
  end.

(** A completion service that is down. *)
Definition silent (_ : World) (_ : Prompt) : Outcome string :=
  Throw (Error "503 Service Unavailable").

(** The same service classifying the message as a financial question. *)
Definition answersFinancial (w : World) (p : Prompt) : Outcome string :=
  match p with
  | IntentPrompt _ _ => Ok (fence ++ "json" ++ nl ++ financialJson ++ nl ++ fence)
  | _ => answers w p
  end.

Definition lunch : ParsedTransaction.t :=
  {| ParsedTransaction.description := Some "lunch";
     ParsedTransaction.amount := Some (-12)%float;
     ParsedTransaction.currency := None;
     ParsedTransaction.category := Some "Food";
     ParsedTransaction.type := Some expense;
     ParsedTransaction.date := None;
     ParsedTransaction.vendor := None |}.

Definition hotel : ParsedTransaction.t :=
  {| ParsedTransaction.description := Some "hotel";
     ParsedTransaction.amount := Some (-50)%float;
     ParsedTransaction.currency := Some "EUR";
     ParsedTransaction.category := Some "Travel";
     ParsedTransaction.type := Some expense;
     ParsedTransaction.date := None;
     ParsedTransaction.vendor := None |}.

Definition nothingParsed : ParsedTransaction.t :=
  {| ParsedTransaction.description := None;
     ParsedTransaction.amount := None;
     ParsedTransaction.currency := None;
     ParsedTransaction.category := None;
     ParsedTransaction.type := None;
     ParsedTransaction.date := None;
     ParsedTransaction.vendor := None |}.

Definition accept (_ : CreateInput.t) : Outcome unit := Ok tt.

Definition ledgerDown (_ : CreateInput.t) : Outcome unit :=
  Throw (Error "connection refused").

(** A ledger that rejects a record whose amount is not a number. *)
Definition rejectNaN (input : CreateInput.t) : Outcome unit :=
  if PrimFloat.is_nan (CreateInput.amount input)
  then Throw (Error "amount is required")
  else Ok tt.

(** A conversion service at the rate 2 that refuses an amount that is not
    positive. *)
Definition doublePositive (amount : number) (_ _ : string) : Outcome number :=
  if PrimFloat.ltb 0%float amount
  then Ok (PrimFloat.mul amount 2%float)
  else Throw (Error "amount must be positive").

Definition ratesDown (_ : number) (_ _ : string) : Outcome number :=
  Throw (Error "rate service unavailable").

Definition row (description : string) (amount : number) : option CsvTransaction.t :=
  Some {| CsvTransaction.description := description;
          CsvTransaction.amount := amount;
          CsvTransaction.category := "Other";
          CsvTransaction.date := None;
          CsvTransaction.type := if lt amount 0%float then expense else income;
          CsvTransaction.vendor := None |}.

Definition rent : CsvTransaction.t :=
  {| CsvTransaction.description := "rent";
     CsvTransaction.amount := (-900)%float;
     CsvTransaction.category := "Other";
     CsvTransaction.date := None;
     CsvTransaction.type := expense;
     CsvTransaction.vendor := None |}.

(** Three rows with an amount and one without. *)
Definition fourRows : CsvResult.t :=
  {| CsvResult.transactions :=
       [row "salary" 2000%float; Some rent;
        row "unreadable" PrimFloat.nan; row "coffee" (-4)%float];
     CsvResult.preview := "4 transactions" |}.

Definition chat (message : string) : Outcome RequestBody.t :=
  Ok {| RequestBody.message := Some message; RequestBody.type := None |}.

Definition preview (csvText : string) : Outcome RequestBody.t :=
  Ok {| RequestBody.message := Some (csvImportMarker ++ csvText);
        RequestBody.type := Some "csv_import" |}.

Definition confirm (csvText : string) : Outcome RequestBody.t :=
  Ok {| RequestBody.message := Some (csvConfirmMarker ++ csvText);
        RequestBody.type := Some "csv_import_confirm" |}.

(** The ledger is down when an entry is made. *)
Definition entryLedgerDown : Collaborators :=
  collaborators answers (Ok lunch) ledgerDown ratesDown (Some "USD") (Ok [])
    noCsv.

(** The ledger and the completion service are both down. *)
Definition entryAllDown : Collaborators :=
  collaborators silent (Ok lunch) ledgerDown ratesDown (Some "USD") (Ok [])
    noCsv.

(** An entry is made and everything works. *)
Definition entryWorks : Collaborators :=
  collaborators answersFinancial (Ok lunch) accept ratesDown (Some "USD") (Ok [])
    noCsv.

(** An expense in euros, entered by a user whose default currency is the
    dollar. *)
Definition euroEntry : Collaborators :=
  collaborators answers (Ok hotel) accept doublePositive (Some "USD") (Ok [])
    noCsv.

(** A question, not an entry. *)
Definition question : Collaborators :=
  collaborators answersFinancial (Ok nothingParsed) accept ratesDown (Some "USD")
    (Ok []) noCsv.

(** The transaction history cannot be read. *)
Definition historyDown : Collaborators :=
  collaborators answers (Ok lunch) accept ratesDown (Some "USD")
    (Throw (Error "connection refused")) noCsv.

(** An upload of four rows. *)
Definition newFile : Collaborators :=
  collaborators answers (Ok nothingParsed) accept ratesDown (Some "USD") (Ok [])
    fourRows.

(** An import by a user whose default currency is the euro. *)
Definition euroImport (convert : number -> string -> string -> Outcome number)
  : Collaborators :=
  collaborators answers (Ok nothingParsed) rejectNaN convert (Some "EUR") (Ok [])
    fourRows.

(** The ledger accepts the entry and the completion service is down. *)
Definition entrySilentModel : Collaborators :=
  collaborators silent (Ok lunch) accept ratesDown (Some "USD") (Ok [])
    noCsv.

(** The spreadsheet parser is out of quota. *)
Definition parserDown : Collaborators :=
  {| GEMINI_API_KEY := Some "key";
     JSON_parse := parse;
     Number_toString := showNumber;
     on_generateContent := answers;
     on_parseCSVWithGemini := fun _ _ => Throw (Error "quota exceeded");
     on_parseTransactionText := fun _ _ => Ok nothingParsed;
     on_answerFinancialQuestion := fun _ _ _ _ => Ok "Your balance is 100 USD.";
     on_convertAmount := fun _ => ratesDown;
     on_getServices := fun _ => Ok user;
     on_getTransactions := fun _ _ _ => Ok [];
     on_findById := fun _ _ => Ok None;
     on_createTransaction := fun _ _ => accept;
     detectLanguage := fun _ => Ok "en";
     CurrencyFormatter_format := fun _ currency => Ok currency;
     CurrencyFormatter_formatWithSymbol := fun _ currency => Ok currency |}.

(** Neither the transaction history nor the completion service answers. *)
Definition allDown : Collaborators :=
  collaborators silent (Ok lunch) accept ratesDown (Some "USD")
    (Throw (Error "connection refused")) noCsv.

Definition dollars : Snapshot.t :=
  {| Snapshot.balance := "USD"; Snapshot.income := "USD";
     Snapshot.expenses := "USD"; Snapshot.transactionCount := 0;
     Snapshot.defaultCurrency := "USD" |}.

End Scenario.

(** * Properties *)

(** ** The string operations *)

Lemma startsWith_app (s p : string) :
  startsWith s p = true <-> exists rest, s = (p ++ rest)%string.
Proof.
  unfold startsWith. revert s.
  induction p as [|a p IH]; intros s; simpl.
  - split; [intros _; exists s; reflexivity|intros _; destruct s; reflexivity].
  - destruct s as [|b s]; simpl.
    + split; [discriminate|intros (rest & H); discriminate].
    + destruct (Ascii.ascii_dec a b) as [->|Hab].
      * rewrite IH. split; intros (rest & H); exists rest; congruence.
      * split; [discriminate|intros (rest & H); congruence].
Qed.

Lemma includes_app (s p : string) :
  includes s p = true <-> exists front rest, s = (front ++ p ++ rest)%string.
Proof.
  induction s as [|c s IH]; cbn [includes].
  - rewrite orb_false_r, startsWith_app. split.
    + intros (rest & H). exists ""%string, rest. exact H.
    + intros ([|x front] & rest & H); [exists rest; exact H|discriminate].
  - rewrite orb_true_iff, startsWith_app, IH. split.
    + intros [(rest & H)|(front & rest & H)].
      * exists ""%string, rest. exact H.
      * exists (String c front), rest. simpl. congruence.
    + intros ([|x front] & rest & H).
      * left. exists rest. exact H.
      * right. exists front, rest. simpl in H. congruence.
Qed.

Lemma startsWith_includes (s p : string) :
  startsWith s p = true -> includes s p = true.
Proof.
  intros H. destruct s; cbn [includes]; rewrite H; reflexivity.
Qed.

Example includes_anywhere :
  includes "NEW_FILE: not a DUPLICATE" "DUPLICATE" = true /\
  startsWith "NEW_FILE: not a DUPLICATE" "DUPLICATE" = false.
Proof. split; reflexivity. Qed.

Example includes_nothing : includes "" "DUPLICATE" = false.
Proof. reflexivity. Qed.

Example matchAfter_first_marker :
  matchAfter csvConfirmMarker "x Process CSV import: a,b"%string = Some "a,b"%string.
Proof. reflexivity. Qed.

Example trim_both_ends : trim ("  a b " ++ nl)%string = "a b"%string.
Proof. reflexivity. Qed.

(** The no-break space (bytes 194 160) and the byte order mark (bytes 239
    187 191) are white space; the letter e with an acute accent (bytes 195
    169) is not. *)
Example trim_beyond_ascii :
  trim (String "194" (String "160" "{}") ++ String "239" (String "187" (String "191" "")))
    = "{}"%string /\
  trim (String "195" (String "169" " ")) = String "195" (String "169" "").
Proof. split; reflexivity. Qed.

Example showNumber_size :
  Scenario.showNumber 2048%float = "2048"%string /\
  Scenario.showNumber (-0)%float = "0"%string.
Proof. split; reflexivity. Qed.

Example aiExplanation_strips_marker :
  aiExplanationOf "duplicate:   same name and size "%string = "same name and size"%string.
Proof. reflexivity. Qed.

Example codeBlockMatch_tagged :
  codeBlockMatch ("Here: " ++ fence ++ "json" ++ nl ++ "{}" ++ nl ++ fence ++ " done")%string
    = Some "{}"%string.
Proof. reflexivity. Qed.

Example codeBlockMatch_unclosed : codeBlockMatch (fence ++ "json {}")%string = None.
Proof. reflexivity. Qed.

Example jsonTextOf_plain : jsonTextOf "{}"%string = "{}"%string.
Proof. reflexivity. Qed.

Example snapshot_amounts :
  let history :=
    [ {| StoredTransaction.amount := Some 2000%float |};
      {| StoredTransaction.amount := Some (-900)%float |};
      {| StoredTransaction.amount := None |};
      {| StoredTransaction.amount := Some (-4)%float |} ] in
  incomeOf history = 2000%float /\
  expensesOf history = 904%float /\
  sub (incomeOf history) (expensesOf history) = 1096%float.
Proof. repeat split. Qed.

(** ** The trace discipline of the monad *)

Lemma accepted_app (xs ys : list Event) :
  accepted (xs ++ ys) = accepted xs ++ accepted ys.
Proof.
  induction xs as [|[c b] xs IH]; simpl; [reflexivity|].
  destruct c; try exact IH.
  destruct b; simpl; [f_equal|]; exact IH.
Qed.

Lemma attempted_app (xs ys : list Event) :
  attempted (xs ++ ys) = attempted xs ++ attempted ys.
Proof.
  induction xs as [|[c b] xs IH]; simpl; [reflexivity|].
  destruct c; try exact IH.
  simpl; f_equal; exact IH.
Qed.

Lemma accepted_notCreate (evs : list Event) :
  forallb notCreate evs = true -> accepted evs = [].
Proof.
  induction evs as [|[c b] evs IH]; simpl; [reflexivity|].
  unfold notCreate at 1, isCreate; simpl.
  destruct c; simpl; try exact IH; discriminate.
Qed.

Lemma attempted_notCreate (evs : list Event) :
  forallb notCreate evs = true -> attempted evs = [].
Proof.
  induction evs as [|[c b] evs IH]; simpl; [reflexivity|].
  unfold notCreate at 1, isCreate; simpl.
  destruct c; simpl; try exact IH; discriminate.
Qed.

Lemma rejected_notCreate (evs : list Event) :
  forallb notCreate evs = true -> rejected evs = [].
Proof.
  induction evs as [|[c b] evs IH]; simpl; [reflexivity|].
  unfold notCreate at 1, isCreate; simpl.
  destruct c; simpl; try exact IH; discriminate.
Qed.

Lemma since_app (s s' : State) (evs : list Event) :
  trace (world s') = trace (world s) ++ evs -> since s s' = evs.
Proof.
  intros H. unfold since. rewrite H.
  rewrite skipn_app, skipn_all, Nat.sub_diag. reflexivity.
Qed.

Section Discipline.

Context {A B : Type} (p : Event -> bool).

Lemma emits_ret (a : A) : emits p (ret a).
Proof.
  intros s; exists []; simpl. now rewrite !app_nil_r.
Qed.

Lemma emits_throw (e : Exn) : emits p (@throw A e).
Proof.
  intros s; exists []; simpl. now rewrite !app_nil_r.
Qed.

Lemma emits_lift (r : Outcome A) : emits p (lift r).
Proof.
  intros s; exists []; simpl. now rewrite !app_nil_r.
Qed.

Lemma emits_get (f : State -> A) : emits p (get f).
Proof.
  intros s; exists []; simpl. now rewrite !app_nil_r.
Qed.

Lemma emits_bind (m : M A) (k : A -> M B) :
  emits p m -> (forall a, emits p (k a)) -> emits p (bind m k).
Proof.
  intros Hm Hk s. unfold bind.
  destruct (Hm s) as (e1 & T1 & L1 & P1).
  destruct (m s) as [[a|e] s1]; simpl in *.
  - destruct (Hk a s1) as (e2 & T2 & L2 & P2).
    exists (e1 ++ e2).
    rewrite T2, T1, L2, L1, accepted_app, forallb_app, P1, P2, !app_assoc.
    auto.
  - exists e1; auto.
Qed.

Lemma emits_tryCatch (m : M A) (h : Exn -> M A) :
  emits p m -> (forall e, emits p (h e)) -> emits p (tryCatch m h).
Proof.
  intros Hm Hh s. unfold tryCatch.
  destruct (Hm s) as (e1 & T1 & L1 & P1).
  destruct (m s) as [[a|e] s1]; simpl in *.
  - exists e1; auto.
  - destruct (Hh e s1) as (e2 & T2 & L2 & P2).
    exists (e1 ++ e2).
    rewrite T2, T1, L2, L1, accepted_app, forallb_app, P1, P2, !app_assoc.
    auto.
Qed.

Lemma emits_await (c : Call) (answer : World -> Outcome A) :
  (forall b, isCreate {| call := c; returned := b |} = false) ->
  (forall b, p {| call := c; returned := b |} = true) ->
  emits p (await c answer).
Proof.
  intros Hc Hp s.
  exists [{| call := c; returned := isOk (answer (world s)) |}]; simpl.
  rewrite Hp. repeat split.
  specialize (Hc true). unfold isCreate in Hc; simpl in Hc.
  destruct c; try discriminate; now rewrite app_nil_r.
Qed.

End Discipline.

Lemma emits_bind_Ok {A B} p (a : A) (k : A -> M B) :
  emits p (k a) -> emits p (bind (lift (Ok a)) k).
Proof.
  intros H s. exact (H s).
Qed.

Lemma emits_forEach {A} p (xs : list A) (body : A -> M unit) :
  (forall x, emits p (body x)) -> emits p (forEach xs body).
Proof.
  intros Hb. induction xs as [|x xs IH]; simpl.
  - apply emits_ret.
  - apply emits_bind; auto.
Qed.

Lemma emits_set_responseText p t : emits p (set_responseText t).
Proof.
  intros s; exists []; simpl. now rewrite !app_nil_r.
Qed.

Lemma emits_set_transactionAdded p b : emits p (set_transactionAdded b).
Proof.
  intros s; exists []; simpl. now rewrite !app_nil_r.
Qed.

Lemma emits_set_importedCount p n : emits p (set_importedCount n).
Proof.
  intros s; exists []; simpl. now rewrite !app_nil_r.
Qed.

Lemma emits_set_failedCount p n : emits p (set_failedCount n).
Proof.
  intros s; exists []; simpl. now rewrite !app_nil_r.
Qed.

Lemma emits_createTransaction E p userId input :
  (forall b, p {| call := createTransaction userId input; returned := b |} = true) ->
  emits p (services_transactions_createTransaction E userId input).
Proof.
  intros Hp s. unfold services_transactions_createTransaction.
  exists [{| call := createTransaction userId input;
             returned := isOk (on_createTransaction E (world s) userId input) |}].
  simpl. rewrite Hp.
  destruct (on_createTransaction E (world s) userId input); simpl; repeat split.
  now rewrite app_nil_r.
Qed.

Create HintDb emits.

#[local] Hint Resolve emits_ret emits_throw emits_lift emits_get emits_bind
  emits_tryCatch emits_forEach emits_set_responseText emits_set_transactionAdded
  emits_set_importedCount emits_set_failedCount : emits.

(** Closes a goal [emits p m] for a program [m] that makes no call [p]
    forbids, by following the program's structure. *)
Ltac emits_step :=
  match goal with
  | |- emits _ (bind _ _) => apply emits_bind; [|intros ?]
  | |- emits _ (tryCatch _ _) => apply emits_tryCatch; [|intros ?]
  | |- emits _ (await _ _) => apply emits_await; intros []; reflexivity
  | |- emits _ (services_transactions_createTransaction _ _ _) =>
      apply emits_createTransaction; intros []; reflexivity
  | |- emits _ (forEach _ _) => apply emits_forEach; intros ?
  | |- emits _ (match ?x with _ => _ end) => destruct x
  | |- emits _ (if ?x then _ else _) => destruct x
  | |- emits _ _ => solve [auto with emits]
  end.

Ltac emits_auto := repeat emits_step.

(** ** The preview phase leaves the ledger alone *)

Lemma csvImport_emits E message : emits notCreate (csvImport E message).
Proof.
  unfold csvImport, request_json_again, analyzeDuplicate, duplicateResponse,
    model_generateContent.
  emits_auto.
Qed.

Lemma emits_frame {A} (m : M A) (s : State) :
  emits notCreate m ->
  ledger (world (snd (m s))) = ledger (world s) /\
  attempted (since s (snd (m s))) = [].
Proof.
  intros H. destruct (H s) as (evs & T & L & P).
  rewrite (since_app _ _ _ T), L, (accepted_notCreate _ P), (attempted_notCreate _ P).
  now rewrite app_nil_r.
Qed.

(** C8. A request of type [csv_import] never reaches the ledger: whatever the
    collaborators answer, and whether the handler returns the duplicate
    warning, the preview or an error, the run makes no [createTransaction]
    call and the ledger is the one it started with. *)
Theorem preview_never_persists
    (E : Collaborators) (body : RequestBody.t) (s : State) :
  RequestBody.type body = Some "csv_import"%string ->
  let s' := snd (POST E (Ok body) s) in
  ledger (world s') = ledger (world s) /\ attempted (since s s') = [].
Proof.
  intros Htype. apply emits_frame.
  unfold POST. apply emits_tryCatch; [|intros ?; apply emits_ret].
  apply emits_bind_Ok. rewrite Htype.
  pose proof (csvImport_emits E) as Hpreview.
  emits_auto; apply Hpreview.
Qed.

(** ** The confirm phase: counts, isolation of failures, what is persisted *)

Lemma rejected_app (xs ys : list Event) :
  rejected (xs ++ ys) = rejected xs ++ rejected ys.
Proof.
  induction xs as [|[c b] xs IH]; simpl; [reflexivity|].
  destruct c; try exact IH.
  destruct b; simpl; [|f_equal]; exact IH.
Qed.

(** What reaches the ledger does not depend on the conversion. *)
Lemma createInputOf_newTransactionOf (t : CsvTransaction.t) (c : Conversion.t) :
  createInputOf (newTransactionOf t c) = rowInput t.
Proof. reflexivity. Qed.

(** The conversion of a row never throws, touches no local counter and makes
    at most one call, to the conversion service. *)
Lemma convertRow_run E defaultCurrency amount s :
  exists c evs,
    convertRow E defaultCurrency amount s =
      (Ok c, withWorld (fun w => {| ledger := ledger w; trace := trace w ++ evs |}) s) /\
    forallb notCreate evs = true.
Proof.
  unfold convertRow.
  destruct (negb (csvCurrency =? defaultCurrency)%string).
  - unfold tryCatch, bind, await, ret; simpl.
    destruct (on_convertAmount E (world s) (Math_abs amount) csvCurrency defaultCurrency);
      simpl; eexists; eexists; split; try reflexivity; reflexivity.
  - exists {| Conversion.finalAmount := amount;
              Conversion.finalCurrency := csvCurrency;
              Conversion.conversionRate := 1%float |}, [].
    split; [|reflexivity].
    unfold ret, withWorld; simpl. rewrite app_nil_r.
    destruct s as [[l t] ? ? ? ?]; reflexivity.
Qed.

(** One turn of the loop: it never throws, it asks the ledger for the row's
    record unless the row is [null], and it moves exactly one counter. *)
Lemma importRow_run E userId defaultCurrency row s :
  exists s' evs,
    importRow E userId defaultCurrency row s = (Ok tt, s') /\
    trace (world s') = trace (world s) ++ evs /\
    ledger (world s') = ledger (world s) ++ accepted evs /\
    attempted evs = rowInputs userId [row] /\
    importedCount s' = importedCount s + List.length (accepted evs) /\
    failedCount s' =
      failedCount s + nullRows [row] + List.length (rejected evs).
Proof.
  destruct row as [t|].
  - unfold importRow, tryCatch, bind, lift; simpl.
    destruct (convertRow_run E defaultCurrency (CsvTransaction.amount t) s)
      as (c & evs & -> & Hevs).
    unfold services_transactions_createTransaction, get, set_importedCount,
      set_failedCount; simpl.
    destruct (on_createTransaction E _ userId _) eqn:Hcreate; simpl;
      eexists; eexists; (split; [reflexivity|]); simpl;
      rewrite <- app_assoc;
      (split; [reflexivity|]);
      rewrite accepted_app, attempted_app, rejected_app,
        (accepted_notCreate _ Hevs), (attempted_notCreate _ Hevs),
        (rejected_notCreate _ Hevs); simpl.
    + repeat split; lia.
    + rewrite app_nil_r. repeat split; lia.
  - exists
      {| world := world s; responseText := responseText s;
         transactionAdded := transactionAdded s;
         importedCount := importedCount s; failedCount := S (failedCount s) |}, [].
    simpl. rewrite !app_nil_r. repeat split; lia.
Qed.

Lemma rowInputs_cons userId row rows :
  rowInputs userId (row :: rows) = rowInputs userId [row] ++ rowInputs userId rows.
Proof. destruct row; reflexivity. Qed.

Lemma nullRows_cons row rows :
  nullRows (row :: rows) = nullRows [row] + nullRows rows.
Proof. destruct row; reflexivity. Qed.

Lemma rowInputs_length userId rows :
  List.length (rowInputs userId rows) + nullRows rows = List.length rows.
Proof.
  induction rows as [|[t|] rows IH]; simpl; lia.
Qed.

Lemma attempted_length (evs : list Event) :
  List.length (attempted evs) =
  List.length (accepted evs) + List.length (rejected evs).
Proof.
  induction evs as [|[c b] evs IH]; simpl; [reflexivity|].
  destruct c; try exact IH.
  destruct b; simpl; lia.
Qed.

(** The whole loop, by induction on the rows: a failed row changes nothing
    for the rows after it. *)
Lemma importRows_run E userId defaultCurrency rows : forall s,
  exists s' evs,
    forEach rows (importRow E userId defaultCurrency) s = (Ok tt, s') /\
    trace (world s') = trace (world s) ++ evs /\
    ledger (world s') = ledger (world s) ++ accepted evs /\
    attempted evs = rowInputs userId rows /\
    importedCount s' = importedCount s + List.length (accepted evs) /\
    failedCount s' = failedCount s + nullRows rows + List.length (rejected evs).
Proof.
  induction rows as [|row rows IH]; intros s.
  - exists s, []; simpl. rewrite !app_nil_r. repeat split; lia.
  - destruct (importRow_run E userId defaultCurrency row s)
      as (s1 & e1 & R1 & T1 & L1 & A1 & I1 & F1).
    destruct (IH s1) as (s2 & e2 & R2 & T2 & L2 & A2 & I2 & F2).
    exists s2, (e1 ++ e2).
    cbn [forEach]. unfold bind at 1. rewrite R1, R2.
    rewrite T2, T1, L2, L1, accepted_app, attempted_app, rejected_app, A1, A2,
      I2, I1, F2, F1, !length_app, <- !app_assoc,
      (rowInputs_cons userId row rows), (nullRows_cons row rows).
    repeat split; lia.
Qed.

(** C2. A confirm-phase run whose payload parses into rows answers with the
    counts of the loop: [importedCount] is the number of rows the ledger
    accepted, [failedCount] the number of rows that threw ([null] rows and
    rows the ledger rejected), the two add up to the number of rows, and the
    ledger was asked once for every row that is not [null], in order, so no
    failure kept a later row from being attempted. *)
Theorem confirm_counts
    (E : Collaborators) (message csvText : string) (result : CsvResult.t)
    (userId : UserId) (profile : option Profile.t) (s : State) :
  matchAfter csvConfirmMarker message = Some csvText ->
  on_parseCSVWithGemini E (world s) csvText = Ok result ->
  let w1 := record (parseCSVWithGemini csvText) true (world s) in
  on_getServices E w1 = Ok userId ->
  let w2 := record getServices true w1 in
  on_findById E w2 userId = Ok profile ->
  exists s',
    let rows := CsvResult.transactions result in
    let evs := since s s' in
    csvImportConfirm E message s =
      (Ok (json200 (successData (importedCount s') (failedCount s'))), s') /\
    importedCount s' = List.length (accepted evs) /\
    failedCount s' = nullRows rows + List.length (rejected evs) /\
    importedCount s' + failedCount s' = List.length rows /\
    attempted evs = rowInputs userId rows /\
    ledger (world s') = ledger (world s) ++ accepted evs.
Proof.
  intros Hmatch Hparse w1 Hservices w2 Hprofile.
  subst w1 w2.
  unfold csvImportConfirm. rewrite Hmatch.
  unfold tryCatch, bind at 1, await at 1. rewrite Hparse. cbn [isOk].
  unfold bind at 1, await at 1. cbn [world withWorld]. rewrite Hservices. cbn [isOk].
  unfold bind at 1, await at 1. cbn [world withWorld]. rewrite Hprofile. cbn [isOk].
  unfold bind at 1, set_importedCount at 1. cbn [world].
  unfold bind at 1, set_failedCount at 1.
  cbn [world responseText transactionAdded importedCount].
  unfold bind at 1.
  match goal with
  | |- context [forEach _ _ ?s3] =>
      destruct (importRows_run E userId (defaultCurrencyOf profile)
                  (CsvResult.transactions result) s3)
        as (s' & evs & R & T & L & A & I & F)
  end.
  rewrite R. exists s'.
  simpl in T, L, I, F.
  assert (since s s' =
          [ {| call := parseCSVWithGemini csvText; returned := true |};
            {| call := getServices; returned := true |};
            {| call := findById userId; returned := true |} ] ++ evs) as Hsince.
  { apply since_app. rewrite T, <- !app_assoc. reflexivity. }
  cbv zeta. rewrite Hsince. cbn [app accepted rejected attempted call returned].
  pose proof (attempted_length evs) as Hlen.
  pose proof (rowInputs_length userId (CsvResult.transactions result)) as Hrows.
  rewrite A in Hlen.
  unfold bind, get, ret. repeat split; try assumption; lia.
Qed.

(** The absolute value of a negative number is positive. *)
Lemma Math_abs_negative (x : number) :
  lt x 0%float = true -> gt (Math_abs x) 0%float = true.
Proof.
  unfold lt, gt, Math_abs.
  rewrite !ltb_spec, abs_spec.
  change (Prim2SF 0%float) with (S754_zero false).
  destruct (Prim2SF x) as [sg|sg| |sg m e]; try destruct sg;
    cbv [SFltb SFcompare SFabs]; congruence.
Qed.

(** C10. In the confirm phase the record handed to [createTransaction] for a
    row carries the absolute value of the row's amount and the currency
    [USD], whatever the default currency is and whatever the conversion
    computed: a negative row is persisted with a positive amount, and
    neither [convertedAmount] nor [conversionRate] reaches the ledger. *)
Theorem confirm_persists_absolute_usd
    (E : Collaborators) (userId : UserId) (defaultCurrency : string)
    (transaction : CsvTransaction.t) (s : State) :
  let s' := snd (importRow E userId defaultCurrency (Some transaction) s) in
  exists input,
    attempted (since s s') = [(userId, input)] /\
    ledger (world s') = ledger (world s) ++ accepted (since s s') /\
    CreateInput.amount input = Math_abs (CsvTransaction.amount transaction) /\
    CreateInput.currency input = "USD"%string /\
    (forall conversion,
       createInputOf (newTransactionOf transaction conversion) = input) /\
    (lt (CsvTransaction.amount transaction) 0%float = true ->
     gt (CreateInput.amount input) 0%float = true).
Proof.
  destruct (importRow_run E userId defaultCurrency (Some transaction) s)
    as (s1 & evs & R & T & L & A & _ & _).
  cbv zeta. rewrite R. cbn [snd].
  rewrite (since_app _ _ _ T).
  exists (rowInput transaction).
  repeat split; try assumption.
  apply Math_abs_negative.
Qed.

(** ** The intent classifier always answers *)

(** C7. [handleFinancialQueryWithLLM] returns a value whatever the model and
    [JSON.parse] do.  When the model call throws, when the text left after
    the code fence is stripped does not parse, or when the parsed value lacks
    a boolean [isFinancial] or a string [intent] (reading a field of [null]
    included), the value is [{isFinancial: false, intent: "unknown"}]; a
    well-typed answer is returned as it is. *)
Theorem classifyIntent_total
    (E : Collaborators) (message userLanguage : string) (s : State) :
  exists analysis,
    fst (handleFinancialQueryWithLLM E message userLanguage s) = Ok analysis /\
    (forall e,
       on_generateContent E (world s) (IntentPrompt message userLanguage) = Throw e ->
       analysis = unknownIntent) /\
    (forall response,
       on_generateContent E (world s) (IntentPrompt message userLanguage) = Ok response ->
       let jsonText := jsonTextOf (trim response) in
       (forall e, JSON_parse E jsonText = Throw e -> analysis = unknownIntent) /\
       (forall parsed,
          JSON_parse E jsonText = Ok parsed ->
          (forall b i,
             property parsed "isFinancial" = Ok (Some (JBool b)) ->
             property parsed "intent" = Ok (Some (JString i)) ->
             analysis = {| QueryAnalysis.isFinancial := b;
                           QueryAnalysis.intent := i;
                           QueryAnalysis.response := "" |}) /\
          ((forall b, property parsed "isFinancial" <> Ok (Some (JBool b))) \/
           (forall i, property parsed "intent" <> Ok (Some (JString i))) ->
           analysis = unknownIntent))).
Proof.
  unfold handleFinancialQueryWithLLM, parseAnalysis, model_generateContent,
    tryCatch, bind, await, lift, ret.
  cbn [fst snd].
  destruct (on_generateContent E (world s) (IntentPrompt message userLanguage))
    as [response|e0] eqn:Hgen; cbn [isOk].
  2:{ exists unknownIntent. repeat split; intros; try reflexivity; discriminate. }
  destruct (JSON_parse E (jsonTextOf (trim response))) as [parsed|e1] eqn:Hparse.
  2:{ exists unknownIntent. split; [reflexivity|]. split; [discriminate|].
      intros r [= <-]. cbv zeta. rewrite Hparse. split; [reflexivity|]. discriminate. }
  destruct (property parsed "isFinancial") as [[[]|]|] eqn:HF;
    try destruct (property parsed "intent") as [[[]|]|] eqn:HI;
    cbn; eexists; (split; [reflexivity|]); (split; [discriminate|]);
    intros r [= <-]; cbv zeta; rewrite Hparse; (split; [discriminate|]);
    intros p [= <-]; rewrite ?HF, ?HI;
    (split;
     [ intros b' i' Hb Hi; congruence
     | intros [H|H]; try reflexivity; exfalso; eapply H; reflexivity ]).
Qed.

(** ** The default path without the ledger *)

Ltac fallback_run E message :=
  unfold record, withWorld; cbn [ledger trace world fst snd isOk];
  rewrite <- ?app_assoc; cbn [app];
  destruct (on_generateContent E _ (FallbackPrompt message)) eqn:Hanswer;
  cbn [ledger trace world fst snd isOk];
  repeat split;
  try (apply since_app; cbn [ledger trace world]; rewrite <- ?app_assoc; reflexivity);
  intros; congruence.

(** The requests that reach the default path. *)
Lemma dispatch_other {A} (t : option string) (x y z : A) :
  t <> Some "csv_import"%string ->
  t <> Some "csv_import_confirm"%string ->
  match t with
  | Some "csv_import"%string => x
  | Some "csv_import_confirm"%string => y
  | _ => z
  end = z.
Proof.
  intros H1 H2.
  destruct t as [t|]; [|reflexivity].
  repeat (destruct t as [|[[] [] [] [] [] [] [] []] t];
          try reflexivity; try (exfalso; apply H1; reflexivity);
          try (exfalso; apply H2; reflexivity)).
Qed.

Lemma POST_chat E (body : RequestBody.t) (message : string) (s : State) :
  RequestBody.message body = Some message ->
  message <> EmptyString ->
  truthy_string (GEMINI_API_KEY E) = true ->
  isChatRequest body ->
  POST E (Ok body) s =
    match defaultPath E message s with
    | (Ok response, s') => (Ok response, s')
    | (Throw _, s') =>
        (Ok (NextResponse.json
               (FailureBody "Failed to process chat message. Please try again.") 500),
         s')
    end.
Proof.
  intros Hbody Hmessage Hkey [H1 H2].
  destruct message as [|c message]; [congruence|].
  unfold POST, tryCatch, bind, lift. rewrite Hbody, Hkey. cbn [negb].
  rewrite (dispatch_other _ _ _ _ H1 H2).
  destruct (defaultPath E (String c message) s) as [[response|e] s']; reflexivity.
Qed.

(** The default path when the ledger or the profile cannot be read. *)
Lemma defaultPath_fallback (E : Collaborators) (message : string) (s : State) :
  fetchFails E (world s) ->
  exists evs,
    let w1 := {| ledger := ledger (world s); trace := trace (world s) ++ evs |} in
    let answer := on_generateContent E w1 (FallbackPrompt message) in
    let s' := snd (defaultPath E message s) in
    forallb isFetch evs = true /\
    since s s' =
      evs ++ [{| call := generateContent (FallbackPrompt message);
                 returned := isOk answer |}] /\
    ledger (world s') = ledger (world s) /\
    fst (defaultPath E message s) =
      match answer with
      | Ok text => Ok (reply text None)
      | Throw e => Throw e
      end.
Proof.
  unfold defaultPath, fetchSnapshot, statelessFallback, model_generateContent,
    tryCatch, bind, await, ret.
  intros [(e & H1)|[(u & e & H1 & H2)|(u & ts & e & H1 & H2 & H3)]].
  - exists [{| call := getServices; returned := false |}].
    rewrite H1. fallback_run E message.
  - exists [{| call := getServices; returned := true |};
            {| call := getTransactions u 1000; returned := false |}].
    rewrite H1. cbn [isOk world withWorld]. rewrite H2. fallback_run E message.
  - exists [{| call := getServices; returned := true |};
            {| call := getTransactions u 1000; returned := true |};
            {| call := findById u; returned := false |}].
    rewrite H1. cbn [isOk world withWorld]. rewrite H2.
    cbn [isOk world withWorld]. rewrite H3. fallback_run E message.
Qed.

(** C9. When the services, the transaction history or the profile cannot be
    read, the handler makes one more call, to the completion service with the
    prompt built from the message alone, and touches nothing else.  When that
    call returns, its text is the message of a successful (200) response that
    carries nothing else.  When it throws as well, the handler answers 500
    with its fixed error: the fallback is a success only as long as the
    completion service answers. *)
Theorem stateless_fallback
    (E : Collaborators) (body : RequestBody.t) (message : string) (s : State) :
  RequestBody.message body = Some message ->
  message <> EmptyString ->
  truthy_string (GEMINI_API_KEY E) = true ->
  isChatRequest body ->
  fetchFails E (world s) ->
  exists evs,
    let w1 := {| ledger := ledger (world s); trace := trace (world s) ++ evs |} in
    let answer := on_generateContent E w1 (FallbackPrompt message) in
    let r := POST E (Ok body) s in
    forallb isFetch evs = true /\
    since s (snd r) =
      evs ++ [{| call := generateContent (FallbackPrompt message);
                 returned := isOk answer |}] /\
    ledger (world (snd r)) = ledger (world s) /\
    fst r =
      Ok match answer with
         | Ok text => reply text None
         | Throw _ =>
             NextResponse.json
               (FailureBody "Failed to process chat message. Please try again.") 500
         end.
Proof.
  intros Hbody Hmessage Hkey Hchat Hfetch.
  destruct (defaultPath_fallback E message s Hfetch) as (evs & Hevs & T & L & R).
  exists evs. cbv zeta in *.
  rewrite (POST_chat E body message s Hbody Hmessage Hkey Hchat).
  destruct (defaultPath E message s) as [[response|e] s'];
    cbn [fst snd] in *; (split; [exact Hevs|]); (split; [exact T|]);
    (split; [exact L|]);
    destruct (on_generateContent E _ (FallbackPrompt message));
    congruence.
Qed.

(** With the completion service down as well there is no successful
    response: the request is answered 500. *)
Lemma fallback_without_completion_is_an_error :
  fetchFails Scenario.allDown emptyWorld /\
  fst (POST Scenario.allDown (Scenario.chat "hello") (start emptyWorld)) =
    Ok (NextResponse.json
          (FailureBody "Failed to process chat message. Please try again.") 500).
Proof.
  split; [|reflexivity].
  right; left. exists Scenario.user, (Error "connection refused").
  split; reflexivity.
Qed.

(** ** Entries come before questions *)

Lemma persisted_notCreate (evs : list Event) :
  forallb notCreate evs = true -> existsb persisted evs = false.
Proof.
  induction evs as [|[c b] evs IH]; simpl; [reflexivity|].
  unfold notCreate at 1, persisted at 1, isCreate; simpl.
  destruct c; simpl; try exact IH; discriminate.
Qed.

(** Runs a program to its end by cases on what each collaborator answers. *)
Ltac run_cases :=
  repeat match goal with
  | |- context [match ?o with Ok _ => _ | Throw _ => _ end] =>
      lazymatch o with
      | context [match _ with _ => _ end] => fail
      | context [if _ then _ else _] => fail
      | _ => destruct o eqn:?
      end; cbn [isOk world withWorld fst snd]
  | |- context [if ?b then _ else _] =>
      lazymatch b with
      | context [match _ with _ => _ end] => fail
      | _ => destruct b eqn:?
      end; cbn [isOk world withWorld fst snd]
  end.

Lemma conclude_emits E userId snapshot message :
  emits notCreate (conclude E userId snapshot message).
Proof.
  unfold conclude, generalResponse, financialQuery, finalResponse,
    handleFinancialQueryWithLLM, parseAnalysis, model_generateContent.
  emits_auto.
Qed.

Lemma conclude_added E userId snapshot message s :
  transactionAdded s = true ->
  conclude E userId snapshot message s =
    (Ok (json200 (chatData (responseText s) true)), s).
Proof.
  intros H.
  unfold conclude, generalResponse, financialQuery, finalResponse, bind, get, ret.
  rewrite H; cbn; rewrite H; cbn; rewrite H. reflexivity.
Qed.

Lemma fetchSnapshot_emits E : emits quiet (fetchSnapshot E).
Proof. unfold fetchSnapshot. emits_auto. Qed.

Lemma quiet_split (evs : list Event) :
  forallb quiet evs = true ->
  forallb notCreate evs = true /\ forallb notQuestion evs = true.
Proof.
  induction evs as [|e evs IH]; simpl; [auto|].
  unfold quiet at 1. rewrite !andb_true_iff. tauto.
Qed.

Lemma answered_none (evs : list Event) :
  forallb notAnswered evs = true -> existsb answered evs = false.
Proof.
  induction evs as [|e evs IH]; simpl; [reflexivity|].
  unfold notAnswered at 1. destruct (answered e); simpl; [discriminate|exact IH].
Qed.

Lemma notQuestion_notAnswered (evs : list Event) :
  forallb notQuestion evs = true -> forallb notAnswered evs = true.
Proof.
  induction evs as [|[c b] evs IH]; simpl; [reflexivity|].
  rewrite !andb_true_iff. intros [H1 H2]. split; [|auto].
  unfold notQuestion, isQuestionHandling in H1. unfold notAnswered, answered.
  simpl in *. destruct c; try reflexivity; discriminate.
Qed.

(** The classifier makes one call and returns. *)
Lemma handleFinancialQueryWithLLM_run E message userLanguage s :
  exists analysis,
    handleFinancialQueryWithLLM E message userLanguage s =
      (Ok analysis,
       withWorld
         (record (generateContent (IntentPrompt message userLanguage))
            (isOk (on_generateContent E (world s)
                     (IntentPrompt message userLanguage)))) s).
Proof.
  unfold handleFinancialQueryWithLLM, parseAnalysis, model_generateContent,
    tryCatch, bind, await, lift, ret.
  destruct (on_generateContent E (world s) (IntentPrompt message userLanguage))
    as [response|e]; cbn [isOk]; [|eauto].
  destruct (JSON_parse E (jsonTextOf (trim response))) as [parsed|e]; [|eauto].
  destruct (property parsed "isFinancial") as [[[]|]|];
    try destruct (property parsed "intent") as [[[]|]|]; eauto.
Qed.

Lemma financialQuery_run E userId message s :
  exists evs,
    trace (world (snd (financialQuery E userId message s))) =
      trace (world s) ++ evs /\
    (existsb answered evs = true ->
     exists answer,
       fst (financialQuery E userId message s) =
         Ok (Some (json200 (answerData answer)))).
Proof.
  assert (exists r s',
            financialQuery E userId message s = (r, s') /\
            exists evs,
              trace (world s') = trace (world s) ++ evs /\
              (existsb answered evs = true ->
               exists answer, r = Ok (Some (json200 (answerData answer)))))
    as (r & s' & -> & H); [|exact H].
  unfold financialQuery, bind at 1, get.
  destruct (negb (transactionAdded s)).
  2:{ eexists; eexists; split; [reflexivity|]. exists [].
      rewrite app_nil_r. split; [reflexivity|discriminate]. }
  unfold bind at 1, lift at 1.
  destruct (detectLanguage E message) as [language|e].
  2:{ eexists; eexists; split; [reflexivity|]. exists [].
      rewrite app_nil_r. split; [reflexivity|discriminate]. }
  unfold bind at 1.
  destruct (handleFinancialQueryWithLLM_run E message language s) as (analysis & ->).
  destruct (QueryAnalysis.isFinancial analysis).
  2:{ eexists; eexists; split; [reflexivity|]. eexists.
      cbn. split; [reflexivity|discriminate]. }
  unfold tryCatch, bind, lift, await, ret.
  cbn [world withWorld].
  destruct (on_answerFinancialQuestion E _ userId message language) as [answer|e];
    eexists; eexists; (split; [reflexivity|]); eexists;
    cbn; rewrite <- app_assoc; (split; [reflexivity|]); cbn;
    [intros _; eexists; reflexivity|discriminate].
Qed.

Lemma respond_unfold E userId snapshot message s :
  respond E userId snapshot message s =
  let parsed := on_parseTransactionText E (world s) message in
  let s1 :=
    {| world := record (parseTransactionText message) (isOk parsed) (world s);
       responseText := ""; transactionAdded := false;
       importedCount := importedCount s; failedCount := failedCount s |} in
  match match parsed with Ok p => transactionInfoOf p | Throw _ => None end with
  | Some info =>
      match addTransaction E userId snapshot message info s1 with
      | (Ok _, s2) => conclude E userId snapshot message s2
      | (Throw e, s2) => (Throw e, s2)
      end
  | None => conclude E userId snapshot message s1
  end.
Proof.
  unfold respond, detectTransaction, set_responseText, set_transactionAdded,
    tryCatch, bind, await, ret, withWorld.
  cbn [world responseText transactionAdded importedCount failedCount].
  destruct (on_parseTransactionText E (world s) message) as [p|e]; cbn [isOk].
  - destruct (transactionInfoOf p); reflexivity.
  - reflexivity.
Qed.

(** *** The world a call was answered in *)

Lemma worldAfter_nil (w : World) : worldAfter w [] = w.
Proof. destruct w. unfold worldAfter. cbn. rewrite !app_nil_r. reflexivity. Qed.

Lemma worldAfter_app (w : World) (xs ys : list Event) :
  worldAfter (worldAfter w xs) ys = worldAfter w (xs ++ ys).
Proof.
  unfold worldAfter. cbn [ledger trace].
  rewrite accepted_app, !app_assoc. reflexivity.
Qed.

Lemma worldAfter_world (s s' : State) (evs : list Event) :
  trace (world s') = trace (world s) ++ evs ->
  ledger (world s') = ledger (world s) ++ accepted evs ->
  world s' = worldAfter (world s) evs.
Proof.
  unfold worldAfter. destruct (world s') as [l t]. cbn. intros -> ->. reflexivity.
Qed.

Lemma worldAfter_fields (w : World) l t (evs : list Event) :
  t = trace w ++ evs ->
  l = ledger w ++ accepted evs ->
  {| ledger := l; trace := t |} = worldAfter w evs.
Proof. intros -> ->. reflexivity. Qed.

Lemma since_worldAfter (s s' : State) (evs : list Event) :
  world s' = worldAfter (world s) evs -> since s s' = evs.
Proof. intros H. apply since_app. rewrite H. reflexivity. Qed.

Lemma emits_world {A} p (m : M A) (s : State) :
  emits p m ->
  exists evs,
    world (snd (m s)) = worldAfter (world s) evs /\ forallb p evs = true.
Proof.
  intros H. destruct (H s) as (evs & T & L & P).
  exists evs. split; [apply worldAfter_world; assumption|exact P].
Qed.

(** Brings the world of a hypothesis or of the goal to the form
    [worldAfter w evs]. *)
Ltac world_norm :=
  unfold worldAfter, record, persist in *;
  cbn [ledger trace accepted call returned app world withWorld] in *;
  rewrite <- ?app_assoc, ?app_nil_r in *;
  cbn [app] in *.

(** *** The entry block *)

Lemma fetchSnapshot_fetches E : emits isFetch (fetchSnapshot E).
Proof. unfold fetchSnapshot. emits_auto. Qed.

Lemma isFetch_quiet (evs : list Event) :
  forallb isFetch evs = true ->
  forallb notChat evs = true /\ forallb noCompletion evs = true /\
  existsb composedChat evs = false.
Proof.
  induction evs as [|[c b] evs IH]; cbn; [auto|].
  rewrite andb_true_iff. intros [H1 H2]. destruct (IH H2) as (I1 & I2 & I3).
  unfold isFetch, notChat, isChat, noCompletion, composedChat in *. cbn in *.
  destruct c; try discriminate; rewrite ?I1, ?I2, ?I3; auto.
Qed.

(** What the entry block leaves in [responseText] when the ledger accepted
    the entry: the text of the last model call when it returned, the fixed
    sentence when no model call returned. *)
Lemma addTransaction_text E userId snapshot message info s :
  transactionAdded s = false ->
  exists s' evs,
    addTransaction E userId snapshot message info s = (Ok tt, s') /\
    world s' = worldAfter (world s) evs /\
    forallb notQuestion evs = true /\
    forallb notChat evs = true /\
    existsb composedChat evs = false /\
    transactionAdded s' = existsb persisted evs /\
    (existsb persisted evs = true ->
     (forallb noCompletion evs = true /\ responseText s' = fixedErrorMessage) \/
     exists pre prompt,
       evs = pre ++ [{| call := generateContent prompt; returned := true |}] /\
       isEntryPrompt prompt = true /\
       on_generateContent E (worldAfter (world s) pre) prompt = Ok (responseText s')).
Proof.
  intros Hadded.
  unfold addTransaction, convertEntry, composeApology,
    services_transactions_createTransaction, model_generateContent,
    set_transactionAdded, set_responseText,
    tryCatch, bind, await, lift, ret.
  cbn [isOk world withWorld fst snd].
  run_cases.
  all: eexists; eexists; (split; [reflexivity|]).
  all: cbn [world trace ledger record persist transactionAdded responseText withWorld].
  all: (split; [unfold record, persist; cbn [ledger trace]; apply worldAfter_fields;
                [rewrite <- ?app_assoc; cbn [app]; reflexivity
                |cbn [accepted call returned]; rewrite ?app_nil_r; reflexivity]|]).
  all: (split; [cbn; auto|]).
  all: (split; [cbn; auto|]).
  all: (split; [cbn; auto|]).
  all: (split; [cbn; auto|]).
  all: cbn [existsb persisted isCreate call returned andb orb]; intros Hp;
    try discriminate.
  all: first
    [ left; split; reflexivity
    | right;
      match goal with
      | |- exists pre prompt, ?l = _ /\ _ =>
          exists (removelast l); cbn [removelast]; eexists;
          split; [reflexivity|]; split; [reflexivity|]
      end;
      world_norm; assumption ].
Qed.

(** *** What follows the entry block *)

(** Closes the goal [world s' = worldAfter w ?evs] for a state [s'] that a
    run from a state of world [w] has reached. *)
Ltac world_reached :=
  unfold record; cbn [world withWorld ledger trace];
  apply worldAfter_fields;
  [ rewrite <- ?app_assoc; cbn [app]; reflexivity
  | cbn; rewrite ?app_nil_r; reflexivity ].

(** When the question-answering call returned it is the last call of the
    run, the general completion was composed before it, and its answer is
    the response.  When no entry was made and no question answered, a
    response is the general completion, which was the first call. *)
Lemma conclude_answer E userId snapshot message s :
  exists evs,
    world (snd (conclude E userId snapshot message s)) = worldAfter (world s) evs /\
    forallb notCreate evs = true /\
    (existsb answered evs = true ->
     exists pre language answer,
       evs = pre ++ [{| call := answerFinancialQuestion userId message language;
                        returned := true |}] /\
       existsb composedChat pre = true /\
       on_answerFinancialQuestion E (worldAfter (world s) pre) userId message language
         = Ok answer /\
       fst (conclude E userId snapshot message s) = Ok (reply answer (Some false))) /\
    (transactionAdded s = false ->
     existsb answered evs = false ->
     forall response,
       fst (conclude E userId snapshot message s) = Ok response ->
       exists text rest,
         evs = {| call := generateContent (GeneralPrompt snapshot message);
                  returned := true |} :: rest /\
         forallb isQuestionHandling rest = true /\
         on_generateContent E (world s) (GeneralPrompt snapshot message) = Ok text /\
         response = reply text (Some false)).
Proof.
  assert (exists r s',
            conclude E userId snapshot message s = (r, s') /\
            exists evs,
              world s' = worldAfter (world s) evs /\
              forallb notCreate evs = true /\
              (existsb answered evs = true ->
               exists pre language answer,
                 evs = pre ++ [{| call := answerFinancialQuestion userId message language;
                                  returned := true |}] /\
                 existsb composedChat pre = true /\
                 on_answerFinancialQuestion E (worldAfter (world s) pre)
                   userId message language = Ok answer /\
                 r = Ok (reply answer (Some false))) /\
              (transactionAdded s = false ->
               existsb answered evs = false ->
               forall response,
                 r = Ok response ->
                 exists text rest,
                   evs = {| call := generateContent (GeneralPrompt snapshot message);
                            returned := true |} :: rest /\
                   forallb isQuestionHandling rest = true /\
                   on_generateContent E (world s) (GeneralPrompt snapshot message)
                     = Ok text /\
                   response = reply text (Some false)))
    as (r & s' & -> & H); [|exact H].
  unfold conclude, generalResponse, financialQuery, finalResponse,
    model_generateContent, set_responseText, tryCatch, bind, get, await, lift, ret.
  destruct (transactionAdded s) eqn:Hadded; cbn [negb].
  { rewrite ?Hadded. cbn [negb transactionAdded]. rewrite ?Hadded. cbn [negb].
    eexists; eexists; split; [reflexivity|]. exists [].
    rewrite worldAfter_nil. repeat split; discriminate. }
  destruct (on_generateContent E (world s) (GeneralPrompt snapshot message))
    as [text|e] eqn:Hgeneral;
    cbn [isOk world withWorld transactionAdded responseText importedCount
           failedCount negb].
  2:{ eexists; eexists; split; [reflexivity|]. eexists.
      split; [world_reached|]. split; [reflexivity|].
      split; [cbn; discriminate|]. intros _ _ response Hr. discriminate. }
  rewrite ?Hadded. cbn [negb].
  destruct (detectLanguage E message) as [language|e] eqn:Hlanguage.
  2:{ eexists; eexists; split; [reflexivity|]. eexists.
      split; [world_reached|]. split; [reflexivity|].
      split; [cbn; discriminate|]. intros _ _ response Hr. discriminate. }
  match goal with
  | |- context [handleFinancialQueryWithLLM E message language ?s1] =>
      destruct (handleFinancialQueryWithLLM_run E message language s1)
        as (analysis & ->)
  end.
  cbn [world withWorld].
  destruct (QueryAnalysis.isFinancial analysis).
  2:{ eexists; eexists; split; [reflexivity|]. eexists.
      split; [world_reached|]. split; [reflexivity|].
      split; [cbn; discriminate|]. intros _ _ response [= <-].
      eexists; eexists. repeat split. }
  match goal with
  | |- context [on_answerFinancialQuestion E ?w userId message language] =>
      destruct (on_answerFinancialQuestion E w userId message language)
        as [answer|e] eqn:Hanswer
  end; cbn [isOk world withWorld].
  - eexists; eexists; split; [reflexivity|]. eexists.
    split; [world_reached|]. split; [reflexivity|]. split.
    + intros _. eexists [_; _], language, answer.
      split; [reflexivity|]. split; [reflexivity|]. split; [|reflexivity].
      world_norm. exact Hanswer.
    + cbn. intros _ Habs. discriminate.
  - eexists; eexists; split; [reflexivity|]. eexists.
    split; [world_reached|]. split; [reflexivity|].
    split; [cbn; discriminate|]. intros _ _ response [= <-].
    eexists; eexists. repeat split.
Qed.

Lemma conclude_entry E userId snapshot message s :
  transactionAdded s = true ->
  conclude E userId snapshot message s =
    (Ok (reply (responseText s) (Some true)), s).
Proof. intros H. rewrite (conclude_added _ _ _ _ _ H). reflexivity. Qed.

Lemma respond_priority E userId snapshot message s :
  exists evs,
    world (snd (respond E userId snapshot message s)) = worldAfter (world s) evs /\
    (existsb persisted evs = true ->
     forallb notQuestion evs = true /\
     forallb notChat evs = true /\
     exists text,
       fst (respond E userId snapshot message s) = Ok (reply text (Some true)) /\
       ((forallb noCompletion evs = true /\ text = fixedErrorMessage) \/
        exists pre prompt,
          evs = pre ++ [{| call := generateContent prompt; returned := true |}] /\
          isEntryPrompt prompt = true /\
          on_generateContent E (worldAfter (world s) pre) prompt = Ok text)) /\
    (existsb answered evs = true ->
     exists pre language answer,
       evs = pre ++ [{| call := answerFinancialQuestion userId message language;
                        returned := true |}] /\
       existsb composedChat pre = true /\
       on_answerFinancialQuestion E (worldAfter (world s) pre) userId message language
         = Ok answer /\
       fst (respond E userId snapshot message s) = Ok (reply answer (Some false))) /\
    (existsb persisted evs = false ->
     existsb answered evs = false ->
     forall response,
       fst (respond E userId snapshot message s) = Ok response ->
       exists pre text rest,
         evs = pre ++ {| call := generateContent (GeneralPrompt snapshot message);
                         returned := true |} :: rest /\
         forallb isQuestionHandling rest = true /\
         on_generateContent E (worldAfter (world s) pre)
           (GeneralPrompt snapshot message) = Ok text /\
         response = reply text (Some false)).
Proof.
  rewrite respond_unfold. cbv zeta.
  set (parsed := on_parseTransactionText E (world s) message).
  set (p0 := {| call := parseTransactionText message; returned := isOk parsed |}).
  set (s1 := {| world := record (parseTransactionText message) (isOk parsed) (world s);
                responseText := ""; transactionAdded := false;
                importedCount := importedCount s; failedCount := failedCount s |}).
  assert (world s1 = worldAfter (world s) [p0]) as W1.
  { unfold s1, record. cbn [world]. apply worldAfter_fields;
      [reflexivity|cbn; rewrite app_nil_r; reflexivity]. }
  assert (forall s2 e2,
            world s2 = worldAfter (world s1) e2 ->
            existsb persisted e2 = false ->
            forallb notQuestion e2 = true ->
            transactionAdded s2 = false ->
            exists evs,
              world (snd (conclude E userId snapshot message s2)) =
                worldAfter (world s) evs /\
              (existsb persisted evs = true ->
               forallb notQuestion evs = true /\
               forallb notChat evs = true /\
               exists text,
                 fst (conclude E userId snapshot message s2) =
                   Ok (reply text (Some true)) /\
                 ((forallb noCompletion evs = true /\ text = fixedErrorMessage) \/
                  exists pre prompt,
                    evs = pre ++ [{| call := generateContent prompt; returned := true |}] /\
                    isEntryPrompt prompt = true /\
                    on_generateContent E (worldAfter (world s) pre) prompt = Ok text)) /\
              (existsb answered evs = true ->
               exists pre language answer,
                 evs = pre ++ [{| call := answerFinancialQuestion userId message language;
                                  returned := true |}] /\
                 existsb composedChat pre = true /\
                 on_answerFinancialQuestion E (worldAfter (world s) pre)
                   userId message language = Ok answer /\
                 fst (conclude E userId snapshot message s2) =
                   Ok (reply answer (Some false))) /\
              (existsb persisted evs = false ->
               existsb answered evs = false ->
               forall response,
                 fst (conclude E userId snapshot message s2) = Ok response ->
                 exists pre text rest,
                   evs = pre ++ {| call := generateContent (GeneralPrompt snapshot message);
                                   returned := true |} :: rest /\
                   forallb isQuestionHandling rest = true /\
                   on_generateContent E (worldAfter (world s) pre)
                     (GeneralPrompt snapshot message) = Ok text /\
                   response = reply text (Some false))) as Hnot.
  { intros s2 e2 W2 P2 Q2 A2.
    destruct (conclude_answer E userId snapshot message s2)
      as (e3 & W3 & P3 & H3 & G3).
    exists ([p0] ++ e2 ++ e3).
    split; [rewrite W3, W2, W1, !worldAfter_app; reflexivity|].
    rewrite !existsb_app, P2, (persisted_notCreate _ P3),
      (answered_none _ (notQuestion_notAnswered _ Q2)).
    split; [cbn; discriminate|].
    cbn [existsb answered persisted isCreate call p0 orb andb]. split.
    - intros Hans.
      destruct (H3 Hans) as (pre & language & answer & -> & Hchat & Hanswer & Hr).
      exists ([p0] ++ e2 ++ pre), language, answer.
      split; [rewrite <- !app_assoc; reflexivity|].
      split; [rewrite !existsb_app, Hchat, !orb_true_r; reflexivity|].
      split; [|exact Hr].
      rewrite <- !worldAfter_app, <- W1, <- W2. exact Hanswer.
    - intros _ Hans response Hr.
      destruct (G3 A2 Hans response Hr) as (text & rest & -> & Hrest & Hgen & ->).
      exists ([p0] ++ e2), text, rest.
      split; [rewrite <- !app_assoc; reflexivity|]. split; [exact Hrest|].
      split; [|reflexivity].
      rewrite <- worldAfter_app, <- W1, <- W2. exact Hgen. }
  destruct (match parsed with Ok p => transactionInfoOf p | Throw _ => None end)
    as [info|].
  - destruct (addTransaction_text E userId snapshot message info s1 eq_refl)
      as (s2 & e2 & R2 & W2 & Q2 & C2 & G2 & A2 & H2).
    rewrite R2.
    destruct (existsb persisted e2) eqn:P2.
    + rewrite (conclude_entry _ _ _ _ _ A2). cbn [fst snd].
      exists ([p0] ++ e2).
      split; [rewrite W2, W1, worldAfter_app; reflexivity|].
      split; [|split].
      * intros _. rewrite !forallb_app, Q2, C2.
        split; [reflexivity|]. split; [reflexivity|].
        exists (responseText s2). split; [reflexivity|].
        destruct (H2 eq_refl) as [[N2 T2]|(pre & prompt & -> & Hentry & Hgen)].
        -- left. rewrite N2. split; [reflexivity|exact T2].
        -- right. exists ([p0] ++ pre), prompt.
           split; [rewrite <- app_assoc; reflexivity|]. split; [exact Hentry|].
           rewrite <- worldAfter_app, <- W1. exact Hgen.
      * rewrite existsb_app, (answered_none _ (notQuestion_notAnswered _ Q2)).
        cbn. discriminate.
      * rewrite existsb_app, P2, orb_true_r. discriminate.
    + apply (Hnot s2 e2 W2 P2 Q2 A2).
  - apply (Hnot s1 []); [now rewrite worldAfter_nil|reflexivity|reflexivity|reflexivity].
Qed.

Lemma statelessFallback_run E message s :
  statelessFallback E message s =
    (match on_generateContent E (world s) (FallbackPrompt message) with
     | Ok text => Ok (reply text None)
     | Throw e => Throw e
     end,
     withWorld
       (record (generateContent (FallbackPrompt message))
          (isOk (on_generateContent E (world s) (FallbackPrompt message)))) s).
Proof.
  unfold statelessFallback, model_generateContent, bind, await, ret.
  destruct (on_generateContent E (world s) (FallbackPrompt message)); reflexivity.
Qed.

(** The stateless fallback after [evs]: it adds one call and no entry, no
    question and no answer; a response is the text of that call. *)
Lemma fallback_after E message (s s1 : State) (evs : list Event) :
  world s1 = worldAfter (world s) evs ->
  exists b,
    world (snd (statelessFallback E message s1)) =
      worldAfter (world s)
        (evs ++ [{| call := generateContent (FallbackPrompt message); returned := b |}]) /\
    forall response,
      fst (statelessFallback E message s1) = Ok response ->
      exists text,
        b = true /\
        on_generateContent E (worldAfter (world s) evs) (FallbackPrompt message)
          = Ok text /\
        response = reply text None.
Proof.
  intros W. rewrite statelessFallback_run. cbn [fst snd world withWorld].
  rewrite W.
  exists (isOk (on_generateContent E (worldAfter (world s) evs) (FallbackPrompt message))).
  split.
  - rewrite <- worldAfter_app. unfold record. apply worldAfter_fields;
      [reflexivity|cbn [accepted call]; rewrite app_nil_r; reflexivity].
  - destruct (on_generateContent E (worldAfter (world s) evs) (FallbackPrompt message))
      as [text|e]; intros response [= <-]. exists text. repeat split.
Qed.

(** C6. On the default path an entry comes before a question, and a question
    before general chat.

    - In a run whose trace holds a [createTransaction] call that returned,
      the intent classifier and the question-answering collaborator were
      never called and no general chat was composed; the response has
      [transactionAdded: true], and its message is the text of the entry's
      last model call (the success message or the apology), or the fixed
      sentence when no model call returned.
    - In a run whose trace holds a question-answering call that returned,
      that call is the last one, the general completion had been composed
      before it, and the response is the answer of that call, with
      [transactionAdded: false].
    - In a run with neither, a response is the text of a general chat
      completion: the general one, after which only the question handling
      was tried, or the one of the stateless fallback. *)
Theorem entry_takes_priority (E : Collaborators) (message : string) (s : State) :
  let r := defaultPath E message s in
  let evs := since s (snd r) in
  (existsb persisted evs = true ->
   forallb notQuestion evs = true /\
   forallb notChat evs = true /\
   exists text,
     fst r = Ok (reply text (Some true)) /\
     ((forallb noCompletion evs = true /\ text = fixedErrorMessage) \/
      exists pre prompt,
        evs = pre ++ [{| call := generateContent prompt; returned := true |}] /\
        isEntryPrompt prompt = true /\
        on_generateContent E (worldAfter (world s) pre) prompt = Ok text)) /\
  (existsb answered evs = true ->
   exists pre userId language answer,
     evs = pre ++ [{| call := answerFinancialQuestion userId message language;
                      returned := true |}] /\
     existsb composedChat pre = true /\
     on_answerFinancialQuestion E (worldAfter (world s) pre) userId message language
       = Ok answer /\
     fst r = Ok (reply answer (Some false))) /\
  (existsb persisted evs = false ->
   existsb answered evs = false ->
   forall response,
     fst r = Ok response ->
     exists pre prompt text rest,
       evs = pre ++ {| call := generateContent prompt; returned := true |} :: rest /\
       on_generateContent E (worldAfter (world s) pre) prompt = Ok text /\
       ((exists snapshot, prompt = GeneralPrompt snapshot message) /\
        forallb isQuestionHandling rest = true /\
        response = reply text (Some false)
        \/
        prompt = FallbackPrompt message /\ rest = [] /\ response = reply text None)).
Proof.
  cbv zeta. unfold defaultPath, tryCatch, bind.
  destruct (emits_world _ _ s (fetchSnapshot_fetches E)) as (e0 & W0 & F0).
  destruct (emits_world _ _ s (fetchSnapshot_emits E)) as (e0' & W0' & P0).
  assert (e0' = e0) as ->.
  { rewrite W0 in W0'. apply (f_equal trace) in W0'. cbn in W0'.
    apply app_inv_head in W0'. congruence. }
  apply quiet_split in P0 as [C0 Q0].
  pose proof (answered_none _ (notQuestion_notAnswered _ Q0)) as A0.
  pose proof (persisted_notCreate _ C0) as N0.
  destruct (isFetch_quiet _ F0) as (K0 & M0 & G0).
  destruct (fetchSnapshot E s) as [[fetched|e] s0]; cbn [snd] in W0.
  - destruct (respond_priority E (fst fetched) (snd fetched) message s0)
      as (e1 & W1 & H1 & G1 & L1).
    destruct (respond E (fst fetched) (snd fetched) message s0) as [[resp|e] s1];
      cbn [fst snd] in *.
    + rewrite (since_worldAfter s s1 (e0 ++ e1))
        by (rewrite W1, W0, worldAfter_app; reflexivity).
      rewrite !existsb_app, !forallb_app, N0, Q0, A0, K0, M0. cbn [orb andb].
      split; [|split].
      * intros P1. destruct (H1 P1) as (Hq & Hc & text & Hr & Htext).
        split; [exact Hq|]. split; [exact Hc|].
        exists text. split; [exact Hr|].
        destruct Htext as [[Hn ->]|(pre & prompt & -> & Hentry & Hgen)].
        -- left. split; [exact Hn|reflexivity].
        -- right. exists (e0 ++ pre), prompt.
           split; [rewrite app_assoc; reflexivity|]. split; [exact Hentry|].
           rewrite <- worldAfter_app, <- W0. exact Hgen.
      * intros P1. destruct (G1 P1) as (pre & language & answer & -> & Hc & Hans & Hr).
        exists (e0 ++ pre), (fst fetched), language, answer.
        split; [rewrite app_assoc; reflexivity|].
        split; [rewrite existsb_app, Hc, orb_true_r; reflexivity|].
        split; [|exact Hr].
        rewrite <- worldAfter_app, <- W0. exact Hans.
      * intros P1 A1 response Hr.
        destruct (L1 P1 A1 response Hr) as (pre & text & rest & -> & Hrest & Hgen & ->).
        exists (e0 ++ pre), (GeneralPrompt (snd fetched) message), text, rest.
        split; [rewrite app_assoc; reflexivity|].
        split; [rewrite <- worldAfter_app, <- W0; exact Hgen|].
        left. split; [eauto|]. split; [exact Hrest|reflexivity].
    + assert (world s1 = worldAfter (world s) (e0 ++ e1)) as W01
        by (rewrite W1, W0, worldAfter_app; reflexivity).
      destruct (fallback_after E message s s1 (e0 ++ e1) W01) as (b & W2 & H2).
      rewrite (since_worldAfter s _ _ W2).
      rewrite !existsb_app, N0, A0. cbn [existsb persisted answered isCreate call orb andb].
      rewrite !orb_false_r.
      split; [|split].
      * intros P1. destruct (H1 P1) as (_ & _ & text & Habs & _). discriminate.
      * intros P1. destruct (G1 P1) as (pre & language & answer & _ & _ & _ & Habs).
        discriminate.
      * intros _ _ response Hr.
        destruct (H2 response Hr) as (text & -> & Hgen & ->).
        exists (e0 ++ e1), (FallbackPrompt message), text, [].
        split; [reflexivity|]. split; [exact Hgen|]. right. repeat split.
  - destruct (fallback_after E message s s0 e0 W0) as (b & W2 & H2).
    rewrite (since_worldAfter s _ _ W2).
    rewrite !existsb_app, N0, A0. cbn [existsb persisted answered isCreate call orb andb].
    split; [discriminate|]. split; [discriminate|].
    intros _ _ response Hr.
    destruct (H2 response Hr) as (text & -> & Hgen & ->).
    exists e0, (FallbackPrompt message), text, [].
    split; [reflexivity|]. split; [exact Hgen|]. right. repeat split.
Qed.

(** ** When the ledger rejects an entry

    The text that the [catch] block of the entry composes (the apology, or
    the fixed sentence) is stored in [responseText], but the flag
    [transactionAdded] is still [false], so the general response is composed
    next and replaces it.  What the handler answers does not depend on it. *)

Lemma generalResponse_setText E snapshot message s t :
  transactionAdded s = false ->
  match generalResponse E snapshot message s with
  | (Ok _, s') => generalResponse E snapshot message (setText t s) = (Ok tt, s')
  | (Throw e, _) => fst (generalResponse E snapshot message (setText t s)) = Throw e
  end.
Proof.
  intros H.
  unfold generalResponse, model_generateContent, set_responseText,
    bind, await, get, ret, setText.
  simpl. rewrite H. simpl.
  destruct (on_generateContent E (world s) (GeneralPrompt snapshot message));
    simpl; rewrite ?H; reflexivity.
Qed.

(** X13. When no transaction was added, what the handler answers after the
    entry does not depend on the text the entry's [catch] block left in
    [responseText]. *)
Lemma apology_is_discarded E userId snapshot message s t :
  transactionAdded s = false ->
  fst (conclude E userId snapshot message (setText t s)) =
  fst (conclude E userId snapshot message s).
Proof.
  intros H.
  pose proof (generalResponse_setText E snapshot message s t H) as G.
  unfold conclude, bind.
  destruct (generalResponse E snapshot message s) as [[u|e] s1].
  - rewrite G. reflexivity.
  - destruct (generalResponse E snapshot message (setText t s)) as [[u|e'] s2];
      simpl in G; [discriminate|]. simpl. congruence.
Qed.

(** C1. The ledger is down when the entry "Spent $12 on lunch" is made.  The
    handler asks the model for the apology and gets it, then asks for the
    general response and answers with that one: the response carries "Here
    is some general advice.", not the apology.  With the completion service
    down as well the request ends in the handler's last [catch] block, a 500
    response that carries an error and no message; the fixed sentence is
    never sent. *)
Theorem ledger_failure_answers_general_chat :
  let request := Scenario.chat "Spent $12 on lunch" in
  let run := POST Scenario.entryLedgerDown request (start emptyWorld) in
  let down := POST Scenario.entryAllDown request (start emptyWorld) in
  List.length (rejected (trace (world (snd run)))) = 1 /\
  filter isApology (trace (world (snd run))) =
    [{| call := generateContent
                  (TransactionErrorPrompt
                     {| Snapshot.balance := "USD"; Snapshot.income := "USD";
                        Snapshot.expenses := "USD"; Snapshot.transactionCount := 0;
                        Snapshot.defaultCurrency := "USD" |}
                     "Spent $12 on lunch");
        returned := true |}] /\
  fst run = Ok (json200 (chatData "Here is some general advice." false)) /\
  responseText (snd down) = fixedErrorMessage /\
  fst down =
    Ok (NextResponse.json
          (FailureBody "Failed to process chat message. Please try again.") 500).
Proof.
  cbv zeta. repeat split; vm_compute; reflexivity.
Qed.

(** ** Duplicate detection in the preview phase

    The preview phase starts by reading the request body a second time.  The
    read rejects, the [catch] block of the phase answers, and nothing of what
    follows line 155 runs: no duplicate analysis is asked of the model and no
    upload is classified, as a duplicate or as new. *)


(** ** Currency conversion *)

(** X9. The confirm phase converts the absolute value of a row's amount and
    puts the sign back: for a negative row the converted amount is the
    negation of what the service answered for the absolute value. *)
Lemma convertRow_reapplies_sign E defaultCurrency amount converted s :
  String.eqb csvCurrency defaultCurrency = false ->
  on_convertAmount E (world s) (Math_abs amount) csvCurrency defaultCurrency
    = Ok converted ->
  lt amount 0%float = true ->
  fst (convertRow E defaultCurrency amount s) =
    Ok {| Conversion.finalAmount := neg converted;
          Conversion.finalCurrency := defaultCurrency;
          Conversion.conversionRate := div converted (Math_abs amount) |} /\
  since s (snd (convertRow E defaultCurrency amount s)) =
    [{| call := convertAmount (Math_abs amount) csvCurrency defaultCurrency;
        returned := true |}].
Proof.
  intros Hcur Hconv Hneg.
  unfold convertRow, tryCatch, bind, await, ret.
  rewrite Hcur. cbn [negb world withWorld]. rewrite Hconv.
  cbn [fst snd isOk]. rewrite Hneg.
  split; [reflexivity|]. apply since_app. reflexivity.
Qed.

(** The default path hands the amount to the conversion service as it is,
    sign included, and takes what the service answers as it is. *)
Lemma convertEntry_passes_signed_amount
    E defaultCurrency transactionCurrency amount s :
  String.eqb transactionCurrency defaultCurrency = false ->
  since s (snd (convertEntry E defaultCurrency transactionCurrency amount s)) =
    [{| call := convertAmount amount transactionCurrency defaultCurrency;
        returned :=
          isOk (on_convertAmount E (world s) amount transactionCurrency
                  defaultCurrency) |}] /\
  forall converted,
    on_convertAmount E (world s) amount transactionCurrency defaultCurrency
      = Ok converted ->
    fst (convertEntry E defaultCurrency transactionCurrency amount s) =
      Ok {| Conversion.finalAmount := converted;
            Conversion.finalCurrency := defaultCurrency;
            Conversion.conversionRate := div converted amount |}.
Proof.
  intros Hcur.
  unfold convertEntry, tryCatch, bind, await, ret.
  rewrite Hcur. cbn [negb world withWorld].
  destruct (on_convertAmount E (world s) amount transactionCurrency defaultCurrency);
    cbn [fst snd isOk]; (split; [apply since_app; reflexivity|]);
    intros c [= <-]; reflexivity.
Qed.

(** C5. An expense of 50 euros is entered by a user whose default currency
    is the dollar, and the conversion service (rate 2) refuses an amount that
    is not positive.  The default path calls the service with -50: the call
    throws and the entry stays at -50 euros, unconverted.  The confirm phase
    calls the same service with 50 for a row of -50 and gets -100. *)
Theorem entry_converts_the_signed_amount :
  let s := start emptyWorld in
  let entry := convertEntry Scenario.euroEntry "USD" "EUR" (-50)%float s in
  let imported :=
    convertRow (Scenario.euroImport Scenario.doublePositive) "EUR" (-50)%float s in
  let run := POST Scenario.euroEntry (Scenario.chat "hotel 50 EUR") s in
  filter isConversion (trace (world (snd run))) =
    [{| call := convertAmount (-50)%float "EUR" "USD"; returned := false |}] /\
  fst entry = Ok {| Conversion.finalAmount := (-50)%float;
                    Conversion.finalCurrency := "EUR";
                    Conversion.conversionRate := 1%float |} /\
  trace (world (snd imported)) =
    [{| call := convertAmount 50%float "USD" "EUR"; returned := true |}] /\
  fst imported = Ok {| Conversion.finalAmount := (-100)%float;
                       Conversion.finalCurrency := "EUR";
                       Conversion.conversionRate := 2%float |}.
Proof.
  cbv zeta. repeat split; vm_compute; reflexivity.
Qed.

(** C3, as the claim states it, fails in the confirm phase: for the row of
    -900 dollars of a user whose default currency is the euro, with the rate
    service down, [convertedAmount] is -900 and [originalAmount] is 900. *)
Lemma failed_conversion_amounts_differ :
  let s := start emptyWorld in
  let E := Scenario.euroImport Scenario.ratesDown in
  exists conversion,
    isOk (on_convertAmount E (world s)
            (Math_abs (CsvTransaction.amount Scenario.rent)) "USD" "EUR") = false /\
    fst (convertRow E "EUR" (CsvTransaction.amount Scenario.rent) s) = Ok conversion /\
    let n := newTransactionOf Scenario.rent conversion in
    NewTransaction.convertedAmount n = (-900)%float /\
    NewTransaction.originalAmount n = 900%float /\
    PrimFloat.eqb (NewTransaction.convertedAmount n)
      (NewTransaction.originalAmount n) = false.
Proof.
  cbv zeta.
  exists {| Conversion.finalAmount := (-900)%float;
            Conversion.finalCurrency := "USD";
            Conversion.conversionRate := 1%float |}.
  repeat split.
Qed.

(** C3, amended.  When the currencies differ and the conversion call throws,
    both paths keep the amount they were given, with its sign, the currency
    it came in, and the rate 1.  In the confirm phase this makes
    [convertedAmount] the row's signed amount while [originalAmount] is its
    absolute value; [convertedCurrency] and [originalCurrency] are both
    [USD].  On the default path the three variables hold the entered amount,
    the entry's currency and 1. *)
Theorem failed_conversion_keeps_amount_and_currency
    (E : Collaborators) (defaultCurrency : string) (s : State) :
  (forall transaction,
     String.eqb csvCurrency defaultCurrency = false ->
     isOk (on_convertAmount E (world s)
             (Math_abs (CsvTransaction.amount transaction))
             csvCurrency defaultCurrency) = false ->
     exists conversion,
       fst (convertRow E defaultCurrency (CsvTransaction.amount transaction) s)
         = Ok conversion /\
       let n := newTransactionOf transaction conversion in
       NewTransaction.convertedAmount n = CsvTransaction.amount transaction /\
       NewTransaction.originalAmount n = Math_abs (CsvTransaction.amount transaction) /\
       NewTransaction.convertedCurrency n = NewTransaction.originalCurrency n /\
       NewTransaction.conversionRate n = 1%float) /\
  (forall transactionCurrency amount,
     String.eqb transactionCurrency defaultCurrency = false ->
     isOk (on_convertAmount E (world s) amount transactionCurrency defaultCurrency)
       = false ->
     fst (convertEntry E defaultCurrency transactionCurrency amount s) =
       Ok {| Conversion.finalAmount := amount;
             Conversion.finalCurrency := transactionCurrency;
             Conversion.conversionRate := 1%float |}).
Proof.
  split.
  - intros transaction Hcur Hfail.
    unfold convertRow, tryCatch, bind, await, ret.
    rewrite Hcur. cbn [negb world withWorld].
    destruct (on_convertAmount E (world s) _ csvCurrency defaultCurrency);
      [discriminate|].
    eexists. split; [reflexivity|]. repeat split.
  - intros transactionCurrency amount Hcur Hfail.
    unfold convertEntry, tryCatch, bind, await, ret.
    rewrite Hcur. cbn [negb world withWorld].
    destruct (on_convertAmount E (world s) amount transactionCurrency defaultCurrency);
      [discriminate|reflexivity].
Qed.

(** ** Further properties of the handler *)

(** The handler never throws: whatever the request and the collaborators,
    [POST] returns a response. *)
Theorem POST_always_responds
    (E : Collaborators) (request : Outcome RequestBody.t) (s : State) :
  exists response, fst (POST E request s) = Ok response.
Proof.
  unfold POST, tryCatch.
  match goal with
  | |- context [match ?m s with _ => _ end] => destruct (m s) as [[r|e] s']
  end; eexists; reflexivity.
Qed.

(** A request without a message, or with an empty one, is answered 400
    before any collaborator is called. *)
Theorem missing_message_is_rejected
    (E : Collaborators) (type : option string) (s : State) :
  let rejected400 :=
    (Ok (NextResponse.json (ErrorBody "Message is required") 400), s) in
  POST E (Ok {| RequestBody.message := None; RequestBody.type := type |}) s
    = rejected400 /\
  POST E (Ok {| RequestBody.message := Some ""%string; RequestBody.type := type |}) s
    = rejected400.
Proof.
  split; reflexivity.
Qed.

(** When the amount is already in the default currency no conversion
    call is made, on either path: the amount and the currency are kept and
    the rate is 1. *)
Theorem same_currency_is_not_converted
    (E : Collaborators) (currency : string) (amount : number) (s : State) :
  convertEntry E currency currency amount s =
    (Ok {| Conversion.finalAmount := amount;
           Conversion.finalCurrency := currency;
           Conversion.conversionRate := 1%float |}, s) /\
  convertRow E csvCurrency amount s =
    (Ok {| Conversion.finalAmount := amount;
           Conversion.finalCurrency := csvCurrency;
           Conversion.conversionRate := 1%float |}, s).
Proof.
  unfold convertEntry, convertRow.
  rewrite !String.eqb_refl. split; reflexivity.
Qed.

(** ** The theorems at concrete requests *)

Lemma failed_conversion_witness :
  exists conversion,
    fst (convertRow (Scenario.euroImport Scenario.ratesDown) "EUR"
           (CsvTransaction.amount Scenario.rent) (start emptyWorld)) = Ok conversion /\
    let n := newTransactionOf Scenario.rent conversion in
    NewTransaction.convertedAmount n = CsvTransaction.amount Scenario.rent /\
    NewTransaction.originalAmount n = Math_abs (CsvTransaction.amount Scenario.rent) /\
    NewTransaction.convertedCurrency n = NewTransaction.originalCurrency n /\
    NewTransaction.conversionRate n = 1%float.
Proof.
  destruct (failed_conversion_keeps_amount_and_currency
              (Scenario.euroImport Scenario.ratesDown) "EUR" (start emptyWorld))
    as [Himport _].
  exact (Himport Scenario.rent eq_refl eq_refl).
Defined.

Lemma confirm_counts_witness :
  exists s',
    csvImportConfirm (Scenario.euroImport Scenario.ratesDown)
      (csvConfirmMarker ++ "date,amount")%string (start emptyWorld) =
      (Ok (json200 (successData 3 1)), s') /\
    List.length (accepted (trace (world s'))) = 3 /\
    List.length (rejected (trace (world s'))) = 1.
Proof.
  destruct (confirm_counts (Scenario.euroImport Scenario.ratesDown)
              (csvConfirmMarker ++ "date,amount")%string "date,amount"
              Scenario.fourRows Scenario.user
              (Some {| Profile.defaultCurrency := Some "EUR"%string |})
              (start emptyWorld) eq_refl eq_refl eq_refl eq_refl)
    as (s' & R & _).
  exists s'.
  pose proof (f_equal snd R) as Hs. cbn [snd] in Hs. subst s'.
  repeat split; vm_compute; reflexivity.
Defined.

Lemma entry_takes_priority_witness :
  let entry := defaultPath Scenario.entryWorks "Spent $12 on lunch" (start emptyWorld) in
  let asked := defaultPath Scenario.question "What is my balance?" (start emptyWorld) in
  (forallb notQuestion (since (start emptyWorld) (snd entry)) = true /\
   forallb notChat (since (start emptyWorld) (snd entry)) = true /\
   fst entry = Ok (reply "Recorded your lunch." (Some true))) /\
  fst asked = Ok (reply "Your balance is 100 USD." (Some false)).
Proof.
  split.
  - destruct (entry_takes_priority Scenario.entryWorks "Spent $12 on lunch"
                (start emptyWorld)) as [Hentry _].
    destruct Hentry as (Hq & Hc & text & Hr & _); [vm_compute; reflexivity|].
    split; [exact Hq|]. split; [exact Hc|]. reflexivity.
  - destruct (entry_takes_priority Scenario.question "What is my balance?"
                (start emptyWorld)) as (_ & Hasked & _).
    destruct Hasked as (pre & userId & language & answer & _ & _ & _ & Hr);
      [vm_compute; reflexivity|].
    reflexivity.
Defined.

Lemma classifyIntent_total_witness :
  fst (handleFinancialQueryWithLLM Scenario.entryLedgerDown "hello" "en"
         (start emptyWorld)) = Ok unknownIntent.
Proof.
  destruct (classifyIntent_total Scenario.entryLedgerDown "hello" "en"
              (start emptyWorld)) as (analysis & Hret & _ & Hok).
  rewrite Hret. f_equal.
  destruct (Hok "I cannot tell."%string eq_refl) as [Hthrow _].
  apply (Hthrow (Error "Unexpected token")). reflexivity.
Defined.

Lemma preview_never_persists_witness :
  let body := {| RequestBody.message := Some (csvImportMarker ++ "date,amount")%string;
                 RequestBody.type := Some "csv_import"%string |} in
  let s' := snd (POST Scenario.newFile (Ok body) (start emptyWorld)) in
  ledger (world s') = [] /\ attempted (since (start emptyWorld) s') = [].
Proof.
  exact (preview_never_persists Scenario.newFile
           {| RequestBody.message := Some (csvImportMarker ++ "date,amount")%string;
              RequestBody.type := Some "csv_import"%string |}
           (start emptyWorld) eq_refl).
Defined.


Lemma stateless_fallback_witness :
  fst (POST Scenario.historyDown (Scenario.chat "hello") (start emptyWorld)) =
    Ok (reply "I can help with your finances." None).
Proof.
  assert (isChatRequest
            {| RequestBody.message := Some "hello"%string;
               RequestBody.type := None |}) as Hchat
    by (split; discriminate).
  assert ("hello"%string <> EmptyString) as Hmessage by discriminate.
  destruct (stateless_fallback Scenario.historyDown
              {| RequestBody.message := Some "hello"%string;
                 RequestBody.type := None |}
              "hello" (start emptyWorld) eq_refl Hmessage eq_refl Hchat)
    as (evs & _ & _ & _ & Hanswer).
  - right; left. exists Scenario.user, (Error "connection refused").
    split; reflexivity.
  - exact Hanswer.
Defined.

Lemma confirm_persists_absolute_usd_witness :
  let s := start emptyWorld in
  let s' := snd (importRow (Scenario.euroImport Scenario.doublePositive)
                   Scenario.user "EUR" (Some Scenario.rent) s) in
  exists input,
    attempted (since s s') = [(Scenario.user, input)] /\
    CreateInput.currency input = "USD"%string /\
    gt (CreateInput.amount input) 0%float = true.
Proof.
  destruct (confirm_persists_absolute_usd
              (Scenario.euroImport Scenario.doublePositive)
              Scenario.user "EUR" Scenario.rent (start emptyWorld))
    as (input & A & _ & _ & Hcur & _ & Hpos).
  exists input. split; [exact A|]. split; [exact Hcur|].
  apply Hpos. reflexivity.
Defined.

Lemma convertRow_reapplies_sign_witness :
  fst (convertRow (Scenario.euroImport Scenario.doublePositive) "EUR" (-50)%float
         (start emptyWorld)) =
    Ok {| Conversion.finalAmount := (-100)%float;
          Conversion.finalCurrency := "EUR";
          Conversion.conversionRate := 2%float |}.
Proof.
  exact (proj1 (convertRow_reapplies_sign
                  (Scenario.euroImport Scenario.doublePositive) "EUR" (-50)%float
                  100%float (start emptyWorld) eq_refl eq_refl eq_refl)).
Defined.

Lemma apology_is_discarded_witness :
  let snapshot :=
    {| Snapshot.balance := "USD"; Snapshot.income := "USD";
       Snapshot.expenses := "USD"; Snapshot.transactionCount := 0;
       Snapshot.defaultCurrency := "USD" |}%string in
  fst (conclude Scenario.entryLedgerDown Scenario.user snapshot "Spent $12 on lunch"
         (setText fixedErrorMessage (start emptyWorld))) =
  fst (conclude Scenario.entryLedgerDown Scenario.user snapshot "Spent $12 on lunch"
         (start emptyWorld)).
Proof.
  exact (apology_is_discarded Scenario.entryLedgerDown Scenario.user
           {| Snapshot.balance := "USD"; Snapshot.income := "USD";
              Snapshot.expenses := "USD"; Snapshot.transactionCount := 0;
              Snapshot.defaultCurrency := "USD" |}%string
           "Spent $12 on lunch" (start emptyWorld) fixedErrorMessage eq_refl).
Defined.

(** ** The shape of a response *)

Section Returns.

Context {A B : Type}.

Lemma returns_ret (P : A -> Prop) (a : A) : P a -> returns P (ret a).
Proof. intros H s a' s' [= <- _]. exact H. Qed.

Lemma returns_throw (P : A -> Prop) (e : Exn) : returns P (@throw A e).
Proof. intros s a s' [=]. Qed.

Lemma returns_bind (P : B -> Prop) (m : M A) (k : A -> M B) :
  (forall a, returns P (k a)) -> returns P (bind m k).
Proof.
  intros Hk s b s'. unfold bind.
  destruct (m s) as [[a|e] s1]; [apply Hk|discriminate].
Qed.

Lemma returns_tryCatch (P : A -> Prop) (m : M A) (h : Exn -> M A) :
  returns P m -> (forall e, returns P (h e)) -> returns P (tryCatch m h).
Proof.
  intros Hm Hh s a s'. unfold tryCatch.
  destruct (m s) as [[a1|e] s1] eqn:R.
  - intros [= <- <-]. exact (Hm _ _ _ R).
  - apply Hh.
Qed.

Lemma returns_bind_with (Q : A -> Prop) (P : B -> Prop) (m : M A) (k : A -> M B) :
  returns Q m -> (forall a, Q a -> returns P (k a)) -> returns P (bind m k).
Proof.
  intros Hm Hk s b s'. unfold bind.
  destruct (m s) as [[a|e] s1] eqn:R; [|discriminate].
  apply Hk. exact (Hm _ _ _ R).
Qed.

End Returns.

Ltac returns_step :=
  match goal with
  | |- returns _ (ret _) => apply returns_ret; try reflexivity
  | |- returns _ (throw _) => apply returns_throw
  | |- returns _ (bind _ _) => apply returns_bind; intros ?
  | |- returns _ (tryCatch _ _) => apply returns_tryCatch; [|intros ?]
  | |- returns _ (match ?x with _ => _ end) => destruct x
  | |- returns _ (if ?x then _ else _) => destruct x
  end.

Lemma csvImport_enveloped E message : returns enveloped (csvImport E message).
Proof.
  unfold csvImport, duplicateResponse, enveloped. repeat returns_step.
Qed.

Lemma csvImportConfirm_enveloped E message :
  returns enveloped (csvImportConfirm E message).
Proof.
  unfold csvImportConfirm, enveloped. repeat returns_step.
Qed.

Lemma financialQuery_enveloped E userId message :
  returns envelopedIfAny (financialQuery E userId message).
Proof.
  unfold financialQuery. repeat returns_step; try exact I.
Qed.

Lemma conclude_enveloped E userId snapshot message :
  returns enveloped (conclude E userId snapshot message).
Proof.
  unfold conclude. apply returns_bind; intros _.
  apply (returns_bind_with envelopedIfAny); [apply financialQuery_enveloped|].
  intros [r|] Hr; [apply returns_ret; exact Hr|].
  unfold finalResponse, enveloped. repeat returns_step.
Qed.

Lemma defaultPath_enveloped E message : returns enveloped (defaultPath E message).
Proof.
  unfold defaultPath, respond, statelessFallback.
  pose proof (conclude_enveloped E) as HC.
  repeat first [apply HC | returns_step].
Qed.

(** X1. Every request is answered, and the answer has one of three shapes:
    status 200 with a [success: true] body, or status 400 or 500 with an
    error body.  No failure is reported inside a 200 response. *)
Theorem POST_response_envelope
    (E : Collaborators) (request : Outcome RequestBody.t) (s : State) :
  exists response,
    fst (POST E request s) = Ok response /\ wellFormed response = true.
Proof.
  destruct (POST_always_responds E request s) as (response & H).
  exists response. split; [exact H|].
  assert (returns enveloped (POST E request)) as HP.
  { unfold POST.
    pose proof (csvImport_enveloped E) as H1.
    pose proof (csvImportConfirm_enveloped E) as H2.
    pose proof (defaultPath_enveloped E) as H3.
    repeat first [apply H1 | apply H2 | apply H3 | returns_step]. }
  destruct (POST E request s) as [r s'] eqn:R. cbn in H. subst r.
  exact (HP _ _ _ R).
Qed.

(** ** The calls of a batch *)

Lemma convertRow_calls E defaultCurrency amount s :
  exists c evs,
    convertRow E defaultCurrency amount s =
      (Ok c, withWorld (fun w => {| ledger := ledger w; trace := trace w ++ evs |}) s) /\
    map call evs =
      if String.eqb csvCurrency defaultCurrency then []
      else [convertAmount (Math_abs amount) csvCurrency defaultCurrency].
Proof.
  unfold convertRow.
  destruct (csvCurrency =? defaultCurrency)%string; cbn [negb].
  - exists {| Conversion.finalAmount := amount;
              Conversion.finalCurrency := csvCurrency;
              Conversion.conversionRate := 1%float |}, [].
    split; [|reflexivity].
    unfold ret, withWorld; simpl. rewrite app_nil_r.
    destruct s as [[l t] ? ? ? ?]; reflexivity.
  - unfold tryCatch, bind, await, ret; simpl.
    destruct (on_convertAmount E (world s) (Math_abs amount) csvCurrency defaultCurrency);
      simpl; eexists; eexists; split; try reflexivity; reflexivity.
Qed.

Lemma importRow_calls E userId defaultCurrency row s :
  exists s' evs,
    importRow E userId defaultCurrency row s = (Ok tt, s') /\
    trace (world s') = trace (world s) ++ evs /\
    map call evs = rowCalls userId defaultCurrency row.
Proof.
  destruct row as [t|].
  - unfold importRow, tryCatch, bind, lift; simpl.
    destruct (convertRow_calls E defaultCurrency (CsvTransaction.amount t) s)
      as (c & evs & -> & Hevs).
    unfold services_transactions_createTransaction, get, set_importedCount,
      set_failedCount; simpl.
    destruct (on_createTransaction E _ userId _); simpl;
      eexists; eexists; (split; [reflexivity|]); simpl;
      rewrite <- app_assoc; (split; [reflexivity|]);
      rewrite map_app, Hevs; reflexivity.
  - eexists; exists []. simpl. rewrite app_nil_r. repeat split.
Qed.

(** X8. The calls of the import loop, in order, are the calls of its rows:
    for a row that is not [null], one conversion call for the absolute value
    of the amount, from [USD] to the default currency, unless the default
    currency is [USD], and then one ledger call; for a [null] row, none.
    What a call answers changes nothing in the sequence. *)
Theorem import_call_sequence
    (E : Collaborators) (userId : UserId) (defaultCurrency : string)
    (rows : list (option CsvTransaction.t)) (s : State) :
  map call (since s (snd (forEach rows (importRow E userId defaultCurrency) s))) =
    flat_map (rowCalls userId defaultCurrency) rows.
Proof.
  assert (exists s' evs,
            forEach rows (importRow E userId defaultCurrency) s = (Ok tt, s') /\
            trace (world s') = trace (world s) ++ evs /\
            map call evs = flat_map (rowCalls userId defaultCurrency) rows)
    as (s' & evs & -> & T & H).
  { revert s. induction rows as [|row rows IH]; intros s.
    - exists s, []. simpl. rewrite app_nil_r. repeat split.
    - destruct (importRow_calls E userId defaultCurrency row s)
        as (s1 & e1 & R1 & T1 & H1).
      destruct (IH s1) as (s2 & e2 & R2 & T2 & H2).
      exists s2, (e1 ++ e2). cbn [forEach flat_map]. unfold bind at 1.
      rewrite R1, R2, T2, T1, map_app, H1, H2, <- app_assoc. repeat split. }
  cbn [snd]. rewrite (since_app _ _ _ T). exact H.
Qed.

Lemma addTransaction_facts E userId snapshot message info s :
  transactionAdded s = false ->
  exists s' evs,
    addTransaction E userId snapshot message info s = (Ok tt, s') /\
    trace (world s') = trace (world s) ++ evs /\
    transactionAdded s' = existsb persisted evs /\
    (attempted evs = [] \/
     exists profile,
       on_findById E (world s) userId = Ok profile /\
       attempted evs =
         [(userId,
           entryInputOf info
             (orString (TransactionInfo.currency info) (defaultCurrencyOf profile)))]) /\
    (existsb persisted evs = true ->
     forallb noCompletion evs = true ->
     responseText s' = fixedErrorMessage).
Proof.
  intros Hadded.
  unfold addTransaction, convertEntry, composeApology,
    services_transactions_createTransaction, model_generateContent,
    set_transactionAdded, set_responseText,
    tryCatch, bind, await, lift, ret.
  cbn [isOk world withWorld fst snd].
  run_cases.
  all: eexists; eexists; (split; [reflexivity|]).
  all: cbn [world trace ledger record persist transactionAdded responseText withWorld].
  all: rewrite <- ?app_assoc; cbn [app].
  all: (split; [reflexivity|]).
  all: (split; [cbn; auto|]).
  all: split;
    [ first [ left; reflexivity
            | right; eexists; split; reflexivity ]
    | cbn; intros; first [reflexivity | discriminate] ].
Qed.

Lemma transactionInfoOf_None (p : ParsedTransaction.t) :
  transactionInfoOf p = None <->
  ParsedTransaction.amount p = None \/
  truthy_string (ParsedTransaction.description p) = false.
Proof.
  unfold transactionInfoOf, truthy_string.
  destruct (ParsedTransaction.amount p), (ParsedTransaction.description p) as [[|c d]|];
    split; intros H; try discriminate; auto; destruct H; discriminate.
Qed.

(** While [transactionAdded] is [false] the first call after the entry is
    the general completion. *)
Lemma conclude_starts_with_chat E userId snapshot message s :
  transactionAdded s = false ->
  exists b rest,
    since s (snd (conclude E userId snapshot message s)) =
      {| call := generateContent (GeneralPrompt snapshot message); returned := b |}
      :: rest.
Proof.
  intros H.
  unfold conclude, bind at 1.
  unfold generalResponse, model_generateContent, bind, get, await, set_responseText.
  rewrite H. cbn [negb].
  destruct (on_generateContent E (world s) (GeneralPrompt snapshot message))
    as [text|e]; cbn [isOk fst snd].
  2:{ eexists; exists []. apply since_app. reflexivity. }
  match goal with
  | |- context [financialQuery E userId message ?s1] =>
      destruct (financialQuery_run E userId message s1) as (e2 & T2 & _);
      destruct (financialQuery E userId message s1) as [[[r|]|e] s2]
  end; unfold finalResponse, bind, get, ret; cbn [fst snd] in *;
    eexists; exists e2; apply since_app; rewrite T2; cbn [world trace withWorld record];
    rewrite <- app_assoc; reflexivity.
Qed.

(** X10. A message leads to at most one ledger call, and the record it asks
    for is the entry as it was parsed: the amount with its sign, and the
    currency the entry names or else the default currency of the profile
    read inside the entry block.  What the conversion computed is not in it. *)
Theorem entry_is_persisted_as_entered
    (E : Collaborators) (userId : UserId) (snapshot : Snapshot.t)
    (message : string) (s : State) :
  let evs := since s (snd (respond E userId snapshot message s)) in
  attempted evs = [] \/
  exists p info profile,
    on_parseTransactionText E (world s) message = Ok p /\
    transactionInfoOf p = Some info /\
    on_findById E (record (parseTransactionText message) true (world s)) userId
      = Ok profile /\
    attempted evs =
      [(userId,
        entryInputOf info
          (orString (TransactionInfo.currency info) (defaultCurrencyOf profile)))].
Proof.
  cbv zeta. rewrite respond_unfold. cbv zeta.
  destruct (on_parseTransactionText E (world s) message) as [p|e] eqn:Hparse;
    cbn [isOk]; [destruct (transactionInfoOf p) as [info|] eqn:Hinfo|].
  - match goal with
    | |- context [addTransaction E userId snapshot message info ?s1] =>
        destruct (addTransaction_facts E userId snapshot message info s1 eq_refl)
          as (s2 & e2 & R & T & _ & A & _)
    end.
    rewrite R.
    destruct (conclude_emits E userId snapshot message s2) as (e3 & T3 & _ & P3).
    rewrite (since_app s _ ([{| call := parseTransactionText message;
                                returned := true |}] ++ e2 ++ e3))
      by (rewrite T3, T; cbn [world trace record]; rewrite <- !app_assoc; reflexivity).
    rewrite !attempted_app, (attempted_notCreate _ P3), app_nil_r.
    cbn [attempted call app].
    destruct A as [A|(profile & Hprofile & A)]; [left; exact A|].
    right. exists p, info, profile. repeat split; assumption.
  - left.
    match goal with
    | |- context [conclude E userId snapshot message ?s1] =>
        destruct (conclude_emits E userId snapshot message s1) as (e3 & T3 & _ & P3)
    end.
    rewrite (since_app s _ ([{| call := parseTransactionText message;
                                returned := true |}] ++ e3))
      by (rewrite T3; cbn [world trace record]; rewrite <- !app_assoc; reflexivity).
    rewrite attempted_app, (attempted_notCreate _ P3). reflexivity.
  - left.
    match goal with
    | |- context [conclude E userId snapshot message ?s1] =>
        destruct (conclude_emits E userId snapshot message s1) as (e3 & T3 & _ & P3)
    end.
    rewrite (since_app s _ ([{| call := parseTransactionText message;
                                returned := false |}] ++ e3))
      by (rewrite T3; cbn [world trace record]; rewrite <- !app_assoc; reflexivity).
    rewrite attempted_app, (attempted_notCreate _ P3). reflexivity.
Qed.

(** X11. When the parser throws, or returns a record without an amount or
    with no description (or an empty one), nothing is asked of the ledger:
    the message goes on as chat, and the call that follows the parser's is
    the general completion. *)
Theorem nothing_actionable_is_answered_as_chat
    (E : Collaborators) (userId : UserId) (snapshot : Snapshot.t)
    (message : string) (s : State) :
  match on_parseTransactionText E (world s) message with
  | Ok p => ParsedTransaction.amount p = None \/
            truthy_string (ParsedTransaction.description p) = false
  | Throw _ => True
  end ->
  let s' := snd (respond E userId snapshot message s) in
  attempted (since s s') = [] /\
  ledger (world s') = ledger (world s) /\
  exists parsed answered rest,
    since s s' =
      {| call := parseTransactionText message; returned := parsed |}
      :: {| call := generateContent (GeneralPrompt snapshot message);
            returned := answered |}
      :: rest.
Proof.
  intros Hnone. cbv zeta. rewrite respond_unfold. cbv zeta.
  assert (match on_parseTransactionText E (world s) message with
          | Ok p => transactionInfoOf p
          | Throw _ => None
          end = None) as ->.
  { destruct (on_parseTransactionText E (world s) message);
      [apply transactionInfoOf_None; exact Hnone|reflexivity]. }
  match goal with
  | |- context [conclude E userId snapshot message ?s1] =>
      destruct (conclude_emits E userId snapshot message s1) as (e3 & T3 & L3 & P3);
      destruct (conclude_starts_with_chat E userId snapshot message s1 eq_refl)
        as (b & rest & Hchat);
      rewrite (since_app _ _ _ T3) in Hchat
  end.
  rewrite (since_app s _ ([{| call := parseTransactionText message;
                              returned := isOk (on_parseTransactionText E (world s) message) |}] ++ e3))
    by (rewrite T3; cbn [world trace record]; rewrite <- !app_assoc; reflexivity).
  rewrite L3, (accepted_notCreate _ P3), app_nil_r, attempted_app,
    (attempted_notCreate _ P3).
  split; [reflexivity|]. split; [reflexivity|].
  subst e3. eexists; eexists; eexists. reflexivity.
Qed.

(** X12. When the ledger accepted the entry and no model call returned
    afterwards (neither the success message nor the apology), the handler
    answers with the fixed sentence, in a 200 response whose
    [transactionAdded] is [true]. *)
Theorem accepted_entry_without_model_gets_fixed_sentence
    (E : Collaborators) (userId : UserId) (snapshot : Snapshot.t)
    (message : string) (s : State) :
  let r := respond E userId snapshot message s in
  existsb persisted (since s (snd r)) = true ->
  forallb noCompletion (since s (snd r)) = true ->
  fst r = Ok (json200 (chatData fixedErrorMessage true)).
Proof.
  cbv zeta. rewrite respond_unfold. cbv zeta.
  set (parsed := on_parseTransactionText E (world s) message).
  assert (forall s1 e1,
            trace (world s1) = trace (world s) ++ e1 ->
            existsb persisted e1 = false ->
            existsb persisted (since s (snd (conclude E userId snapshot message s1)))
              = true -> False) as Hnot.
  { intros s1 e1 T1 P1.
    destruct (conclude_emits E userId snapshot message s1) as (e3 & T3 & _ & P3).
    rewrite (since_app s _ (e1 ++ e3)) by (rewrite T3, T1, <- app_assoc; reflexivity).
    rewrite existsb_app, P1, (persisted_notCreate _ P3). discriminate. }
  destruct (match parsed with Ok p => transactionInfoOf p | Throw _ => None end)
    as [info|].
  - match goal with
    | |- context [addTransaction E userId snapshot message info ?s1] =>
        destruct (addTransaction_facts E userId snapshot message info s1 eq_refl)
          as (s2 & e2 & R & T & A & _ & F)
    end.
    rewrite R. cbn [world trace record] in T. rewrite <- app_assoc in T.
    destruct (existsb persisted e2) eqn:P2.
    + rewrite (conclude_added _ _ _ _ _ A). cbn [fst snd].
      rewrite (since_app s s2 _ T), forallb_app.
      intros _ Hquiet. apply andb_true_iff in Hquiet as [_ Hquiet].
      rewrite (F eq_refl Hquiet). reflexivity.
    + intros Hp. exfalso.
      apply (Hnot s2 ([{| call := parseTransactionText message;
                          returned := isOk parsed |}] ++ e2));
        [exact T|rewrite existsb_app, P2; reflexivity|exact Hp].
  - intros Hp. exfalso.
    match type of Hp with
    | context [conclude E userId snapshot message ?s1] =>
        apply (Hnot s1 [{| call := parseTransactionText message;
                           returned := isOk parsed |}]);
          [reflexivity|reflexivity|exact Hp]
    end.
Qed.

(** ** The confirm phase at its edges *)

(** X7. In the confirm phase a payload without the marker is answered 400
    before anything is called.  With the marker, when the parser, the
    services or the profile throws, the answer is 500 with the thrown
    error's message after "CSV import failed: " (or "Unknown error" for a
    value that is not an [Error]), and no row reaches the ledger. *)
Theorem confirm_failure_is_reported
    (E : Collaborators) (message : string) (s : State) :
  (matchAfter csvConfirmMarker message = None ->
   csvImportConfirm E message s =
     (Ok (NextResponse.json
            (FailureBody "Invalid CSV import confirmation format") 400), s)) /\
  (forall csvText e,
     matchAfter csvConfirmMarker message = Some csvText ->
     confirmSetupFails E (world s) csvText e ->
     let r := csvImportConfirm E message s in
     fst r =
       Ok (NextResponse.json
             (FailureBody ("CSV import failed: " ++ errorText e)%string) 500) /\
     attempted (since s (snd r)) = [] /\
     ledger (world (snd r)) = ledger (world s)).
Proof.
  split.
  - intros Hmarker. unfold csvImportConfirm, tryCatch, ret. rewrite Hmarker.
    reflexivity.
  - intros csvText e Hmarker Hfails. cbv zeta.
    unfold csvImportConfirm, tryCatch, bind, await, ret. rewrite Hmarker.
    destruct Hfails as [H1|[(result & H1 & H2)|(result & userId & H1 & H2 & H3)]];
      rewrite H1; cbn [isOk world withWorld];
      try (rewrite H2; cbn [isOk world withWorld]);
      try (rewrite H3; cbn [isOk world withWorld]);
      cbn [fst snd]; (split; [destruct e; reflexivity|]);
      (split; [|reflexivity]);
      erewrite since_app by (cbn [world trace withWorld record];
                             rewrite <- ?app_assoc; reflexivity);
      reflexivity.
Qed.

(** ** Code fences around the classifier's JSON *)

Lemma string_app_assoc (a b c : string) :
  ((a ++ b) ++ c = a ++ (b ++ c))%string.
Proof. induction a as [|x a IH]; simpl; [reflexivity|now rewrite IH]. Qed.

Lemma string_length_app (a b : string) :
  String.length (a ++ b)%string = String.length a + String.length b.
Proof. induction a as [|x a IH]; simpl; [reflexivity|now rewrite IH]. Qed.

Lemma hasTick_app (a b : string) :
  hasTick (a ++ b)%string = hasTick a || hasTick b.
Proof.
  induction a as [|x a IH]; simpl; [reflexivity|].
  rewrite IH, orb_assoc. reflexivity.
Qed.

(** A text that begins with a character other than a backtick does not begin
    with a fence. *)
Lemma startsWith_fence_other (c : ascii) (s : string) :
  Ascii.eqb c "`"%char = false -> startsWith (String c s) fence = false.
Proof.
  intros H. unfold startsWith, fence. cbn [String.prefix].
  destruct (ascii_dec "`" c) as [<-|_]; [discriminate|reflexivity].
Qed.

Lemma startsWith_self (p rest : string) : startsWith (p ++ rest)%string p = true.
Proof. apply startsWith_app. exists rest. reflexivity. Qed.

Lemma matchAfter_fence (pre rest : string) :
  hasTick pre = false ->
  matchAfter fence (pre ++ fence ++ rest)%string = Some rest.
Proof.
  induction pre as [|c pre IH]; intros H.
  - pose proof (startsWith_self fence rest) as Hself.
    cbn [append fence] in *. cbn [matchAfter]. rewrite Hself. reflexivity.
  - simpl in H. apply orb_false_iff in H as [Hc Hpre].
    change (String c pre ++ fence ++ rest)%string
      with (String c (pre ++ fence ++ rest)%string).
    cbn [matchAfter]. rewrite (startsWith_fence_other _ _ Hc). exact (IH Hpre).
Qed.

Lemma matchAfter_fence_none (s : string) :
  hasTick s = false -> matchAfter fence s = None.
Proof.
  induction s as [|c s IH]; intros H; [reflexivity|].
  simpl in H. apply orb_false_iff in H as [Hc Hs].
  cbn [matchAfter]. rewrite (startsWith_fence_other _ _ Hc). exact (IH Hs).
Qed.

Lemma before_fence (a rest : string) :
  hasTick a = false -> before fence (a ++ fence ++ rest)%string = a.
Proof.
  induction a as [|c a IH]; intros H.
  - pose proof (startsWith_self fence rest) as Hself.
    cbn [append fence] in *. cbn [before]. rewrite Hself. reflexivity.
  - simpl in H. apply orb_false_iff in H as [Hc Ha].
    change (String c a ++ fence ++ rest)%string
      with (String c (a ++ fence ++ rest)%string).
    cbn [before]. rewrite (startsWith_fence_other _ _ Hc), (IH Ha). reflexivity.
Qed.

Lemma before_line_fence (a rest : string) :
  hasTick a = false ->
  before (nl ++ fence) (a ++ nl ++ fence ++ rest)%string = a.
Proof.
  induction a as [|c a IH]; intros H.
  - pose proof (startsWith_self (nl ++ fence) rest) as Hself.
    cbn [append fence nl] in *. cbn [before]. rewrite Hself. reflexivity.
  - simpl in H. apply orb_false_iff in H as [Hc Ha].
    change (String c a ++ nl ++ fence ++ rest)%string
      with (String c (a ++ nl ++ fence ++ rest)%string).
    cbn [before].
    assert (startsWith (String c (a ++ nl ++ fence ++ rest)%string) (nl ++ fence)
            = false) as ->.
    { unfold startsWith, nl, fence. cbn [String.prefix append].
      destruct (ascii_dec "010" c) as [_|_]; [|reflexivity].
      destruct a as [|d a]; cbn [String.prefix append].
      - destruct (ascii_dec "`" "010") as [Habs|_]; [discriminate|reflexivity].
      - cbn [hasTick] in Ha. apply orb_false_iff in Ha as [Hd _].
        destruct (ascii_dec "`" d) as [<-|_]; [discriminate|reflexivity]. }
    rewrite (IH Ha). reflexivity.
Qed.

(** A white-space character of two or three bytes continues with bytes from
    128 up, so a line feed never completes one. *)
Lemma isSpace2_second (a b : ascii) :
  isSpace2 a b = true -> nat_of_ascii b = 160.
Proof.
  unfold isSpace2. rewrite andb_true_iff, !Nat.eqb_eq. tauto.
Qed.

Lemma isSpace3_continues (a b c : ascii) :
  isSpace3 a b c = true -> 128 <= nat_of_ascii b /\ 128 <= nat_of_ascii c.
Proof.
  unfold isSpace3. cbv zeta.
  repeat first [rewrite orb_true_iff | rewrite andb_true_iff].
  rewrite ?Nat.eqb_eq, ?Nat.leb_le. lia.
Qed.

Lemma trimStart_length (s : string) :
  String.length (trimStart s) <= String.length s.
Proof.
  assert (forall n s, String.length s <= n ->
                      String.length (trimStart s) <= String.length s) as H.
  { induction n as [|n IH]; intros t Hn.
    - destruct t; [reflexivity|simpl in Hn; lia].
    - destruct t as [|a [|b [|c r3]]].
      + reflexivity.
      + cbn [trimStart]. destruct (isSpace1 a); simpl; lia.
      + pose proof (IH (String b EmptyString)) as IH1.
        cbn [trimStart String.length] in *.
        destruct (isSpace1 a); [lia|]. destruct (isSpace2 a b); simpl; lia.
      + pose proof (IH (String b (String c r3))) as IH1.
        pose proof (IH (String c r3)) as IH2.
        pose proof (IH r3) as IH3.
        change (trimStart (String a (String b (String c r3))))
          with (if isSpace1 a then trimStart (String b (String c r3))
                else if isSpace2 a b then trimStart (String c r3)
                else if isSpace3 a b c then trimStart r3
                else String a (String b (String c r3))).
        cbn [String.length] in *.
        destruct (isSpace1 a); [lia|]. destruct (isSpace2 a b); [lia|].
        destruct (isSpace3 a b c); [lia|]. cbn [String.length]. lia. }
  apply (H (String.length s)). reflexivity.
Qed.

(** A text that does not begin with white space still does not when a line
    feed and more text follow it. *)
Lemma trimStart_before_line (s rest : string) :
  s <> EmptyString ->
  trimStart s = s ->
  trimStart (s ++ nl ++ rest)%string = (s ++ nl ++ rest)%string.
Proof.
  intros Hs H.
  destruct s as [|a r1]; [congruence|clear Hs].
  assert (isSpace1 a = false) as H1.
  { destruct (isSpace1 a) eqn:Ha; [|reflexivity].
    cbn [trimStart] in H. rewrite Ha in H.
    pose proof (trimStart_length r1) as L. rewrite H in L. simpl in L. lia. }
  assert (forall c, isSpace2 a "010" = false /\ forall b, isSpace3 a b "010" = false /\
                    isSpace3 a "010" c = false) as Hline.
  { intros c. split; [|intros b; split].
    - destruct (isSpace2 a "010") eqn:Hx; [|reflexivity].
      apply isSpace2_second in Hx. vm_compute in Hx. lia.
    - destruct (isSpace3 a b "010") eqn:Hx; [|reflexivity].
      apply isSpace3_continues in Hx as [_ Hx]. vm_compute in Hx. lia.
    - destruct (isSpace3 a "010" c) eqn:Hx; [|reflexivity].
      apply isSpace3_continues in Hx as [Hx _]. vm_compute in Hx. lia. }
  destruct r1 as [|b r2].
  - unfold nl. cbn [append trimStart]. rewrite H1.
    rewrite (proj1 (Hline "000"%char)).
    destruct rest as [|c rest]; [reflexivity|].
    rewrite (proj2 (proj2 (Hline c) "000"%char)). reflexivity.
  - assert (isSpace2 a b = false) as H2.
    { destruct (isSpace2 a b) eqn:Hab; [|reflexivity].
      cbn [trimStart] in H. rewrite H1, Hab in H.
      pose proof (trimStart_length r2) as L. rewrite H in L. simpl in L. lia. }
    destruct r2 as [|c r3].
    + unfold nl. cbn [append trimStart]. rewrite H1, H2.
      rewrite (proj1 (proj2 (Hline "000"%char) b)). reflexivity.
    + assert (isSpace3 a b c = false) as H3.
      { destruct (isSpace3 a b c) eqn:Habc; [|reflexivity].
        cbn [trimStart] in H. rewrite H1, H2, Habc in H.
        pose proof (trimStart_length r3) as L. rewrite H in L. simpl in L. lia. }
      cbn [append trimStart]. rewrite H1, H2, H3. reflexivity.
Qed.

(** The group captured from a fenced text is the text between the fences. *)
Lemma codeBlockMatch_fenced (pre tag post bare : string) :
  tag = ""%string \/ tag = "json"%string ->
  hasTick pre = false ->
  hasTick bare = false ->
  bare <> EmptyString ->
  trimStart bare = bare ->
  codeBlockMatch (pre ++ fence ++ tag ++ nl ++ bare ++ nl ++ fence ++ post)%string
    = Some bare.
Proof.
  intros Htag Hpre Hbare Hnonempty Hstart.
  unfold codeBlockMatch. rewrite (matchAfter_fence _ _ Hpre).
  assert (includes (tag ++ nl ++ bare ++ nl ++ fence ++ post)%string fence
          = true) as ->.
  { apply includes_app.
    exists (tag ++ nl ++ bare ++ nl)%string, post.
    rewrite !string_app_assoc. reflexivity. }
  assert (trimStart
            (if startsWith (tag ++ nl ++ bare ++ nl ++ fence ++ post)%string "json"
             then drop 4 (tag ++ nl ++ bare ++ nl ++ fence ++ post)%string
             else (tag ++ nl ++ bare ++ nl ++ fence ++ post)%string)
          = (bare ++ nl ++ fence ++ post)%string) as ->.
  { pose proof (trimStart_before_line bare (fence ++ post) Hnonempty Hstart) as Hkeep.
    destruct Htag as [-> | ->].
    - change (trimStart (String "010" (bare ++ nl ++ fence ++ post))
              = (bare ++ nl ++ fence ++ post)%string).
      exact Hkeep.
    - change (trimStart (String "010" (bare ++ nl ++ fence ++ post))
              = (bare ++ nl ++ fence ++ post)%string).
      exact Hkeep. }
  rewrite (before_line_fence _ _ Hbare).
  replace (bare ++ nl ++ fence ++ post)%string
    with ((bare ++ nl) ++ fence ++ post)%string
    by apply string_app_assoc.
  rewrite before_fence by (rewrite hasTick_app, Hbare; reflexivity).
  rewrite string_length_app.
  replace (Nat.ltb (String.length bare) (String.length bare + String.length nl))
    with true; [reflexivity|].
  symmetry. apply Nat.ltb_lt. simpl. lia.
Qed.

(** X14. A classifier answer wrapped in a code fence, with or without the
    [json] tag and with prose around it, is read exactly as the bare answer:
    the text between the fences is what goes to [JSON.parse], so the inner
    [try] block returns the same analysis in the same state.  The answer is
    any text without a backtick that neither begins nor ends with white
    space. *)
Theorem fenced_answer_is_read_like_bare
    (E : Collaborators) (pre tag post bare : string) (s : State) :
  tag = ""%string \/ tag = "json"%string ->
  hasTick pre = false ->
  hasTick bare = false ->
  bare <> EmptyString ->
  trimStart bare = bare ->
  trimEnd bare = bare ->
  let fenced := (pre ++ fence ++ tag ++ nl ++ bare ++ nl ++ fence ++ post)%string in
  jsonTextOf fenced = bare /\
  jsonTextOf bare = bare /\
  parseAnalysis E fenced s = parseAnalysis E bare s.
Proof.
  intros Htag Hpre Hbare Hnonempty Hstart Hend. cbv zeta.
  assert (jsonTextOf (pre ++ fence ++ tag ++ nl ++ bare ++ nl ++ fence ++ post)%string
          = bare) as Hfenced.
  { unfold jsonTextOf.
    rewrite (codeBlockMatch_fenced pre tag post bare Htag Hpre Hbare Hnonempty Hstart).
    unfold trim. rewrite Hstart. exact Hend. }
  assert (jsonTextOf bare = bare) as Hplain.
  { unfold jsonTextOf, codeBlockMatch.
    rewrite (matchAfter_fence_none _ Hbare). reflexivity. }
  split; [exact Hfenced|]. split; [exact Hplain|].
  unfold parseAnalysis. rewrite Hfenced, Hplain. reflexivity.
Qed.

(** ** Validation of the request *)

Lemma csvImport_notPlainError E message : returns notPlainError (csvImport E message).
Proof.
  unfold csvImport, duplicateResponse, notPlainError. repeat returns_step.
Qed.

Lemma csvImportConfirm_notPlainError E message :
  returns notPlainError (csvImportConfirm E message).
Proof.
  unfold csvImportConfirm, notPlainError. repeat returns_step.
Qed.

Lemma defaultPath_notPlainError E message :
  returns notPlainError (defaultPath E message).
Proof.
  assert (forall userId, returns notPlainErrorIfAny (financialQuery E userId message))
    as HQ.
  { intros userId. unfold financialQuery. repeat returns_step; try exact I. }
  unfold defaultPath, respond, conclude, statelessFallback.
  apply returns_tryCatch; [|intros ?; unfold notPlainError; repeat returns_step].
  do 6 (apply returns_bind; intros ?).
  apply (returns_bind_with notPlainErrorIfAny); [apply HQ|].
  intros [r|] Hr; [apply returns_ret; exact Hr|].
  unfold finalResponse, notPlainError. repeat returns_step.
Qed.

(** X2. A body of the form [{ error }] is only ever the answer of the two
    checks made before anything else: status 400 when the message is missing,
    not a string or empty, status 500 when [GEMINI_API_KEY] is not set.  In
    both cases no collaborator was called.  Every other failure is reported
    as [{ success: false, error }]. *)
Theorem plain_errors_come_from_validation
    (E : Collaborators) (request : Outcome RequestBody.t) (s : State)
    (response : NextResponse.t) :
  fst (POST E request s) = Ok response ->
  plainError response = true ->
  snd (POST E request s) = s /\
  exists body,
    request = Ok body /\
    ((truthy_string (RequestBody.message body) = false /\
      response = NextResponse.json (ErrorBody "Message is required") 400) \/
     (truthy_string (RequestBody.message body) = true /\
      truthy_string (GEMINI_API_KEY E) = false /\
      NextResponse.status response = 500)).
Proof.
  unfold POST, tryCatch, bind, lift.
  destruct request as [body|e]; [|intros [= <-]; discriminate].
  destruct (RequestBody.message body) as [[|c message]|] eqn:Hmessage.
  - cbn. intros [= <-] _. split; [reflexivity|]. exists body. rewrite Hmessage. auto.
  - destruct (truthy_string (GEMINI_API_KEY E)) eqn:Hkey; cbn [negb].
    + intros Hresponse Hplain. exfalso.
      assert (returns notPlainError
                match RequestBody.type body with
                | Some "csv_import"%string => csvImport E (String c message)
                | Some "csv_import_confirm"%string =>
                    csvImportConfirm E (String c message)
                | _ => defaultPath E (String c message)
                end) as Hpath.
      { pose proof (csvImport_notPlainError E) as H1.
        pose proof (csvImportConfirm_notPlainError E) as H2.
        pose proof (defaultPath_notPlainError E) as H3.
        repeat first [apply H1 | apply H2 | apply H3 | returns_step]. }
      match type of Hresponse with
      | context [match ?m s with _ => _ end] =>
          destruct (m s) as [[r|e] s'] eqn:R; cbn in Hresponse
      end.
      * injection Hresponse as ->. rewrite (Hpath _ _ _ R) in Hplain. discriminate.
      * injection Hresponse as <-. discriminate.
    + cbn. intros [= <-] _. split; [reflexivity|]. exists body.
      rewrite Hmessage. split; [reflexivity|]. right. auto.
  - cbn. intros [= <-] _. split; [reflexivity|]. exists body. rewrite Hmessage. auto.
Qed.

(** ** The snapshot *)




(** ** The further properties at concrete requests *)

Lemma nothing_actionable_witness :
  let s := start emptyWorld in
  let s' := snd (respond Scenario.question Scenario.user Scenario.dollars
                   "What is my balance?" s) in
  attempted (since s s') = [] /\
  ledger (world s') = ledger (world s) /\
  exists parsed answered rest,
    since s s' =
      {| call := parseTransactionText "What is my balance?"; returned := parsed |}
      :: {| call := generateContent
                      (GeneralPrompt Scenario.dollars "What is my balance?");
            returned := answered |}
      :: rest.
Proof.
  apply (nothing_actionable_is_answered_as_chat Scenario.question Scenario.user
           Scenario.dollars "What is my balance?" (start emptyWorld)).
  left. reflexivity.
Defined.

Lemma accepted_entry_without_model_witness :
  fst (respond Scenario.entrySilentModel Scenario.user Scenario.dollars
         "Spent $12 on lunch" (start emptyWorld)) =
    Ok (json200 (chatData fixedErrorMessage true)).
Proof.
  apply (accepted_entry_without_model_gets_fixed_sentence Scenario.entrySilentModel
           Scenario.user Scenario.dollars "Spent $12 on lunch" (start emptyWorld));
    vm_compute; reflexivity.
Defined.

Lemma confirm_failure_witness :
  let r := csvImportConfirm Scenario.parserDown
             (csvConfirmMarker ++ "date,amount")%string (start emptyWorld) in
  fst r =
    Ok (NextResponse.json (FailureBody "CSV import failed: quota exceeded") 500) /\
  attempted (since (start emptyWorld) (snd r)) = [] /\
  ledger (world (snd r)) = [].
Proof.
  destruct (confirm_failure_is_reported Scenario.parserDown
              (csvConfirmMarker ++ "date,amount")%string (start emptyWorld))
    as [_ Hfails].
  apply (Hfails "date,amount"%string (Error "quota exceeded") eq_refl).
  left. reflexivity.
Defined.

Lemma fenced_answer_witness :
  jsonTextOf
    ("Here is the analysis:" ++ nl ++ fence ++ "json" ++ nl ++
     Scenario.financialJson ++ nl ++ fence)%string
  = Scenario.financialJson.
Proof.
  assert (Scenario.financialJson <> EmptyString) as Hnonempty by discriminate.
  destruct (fenced_answer_is_read_like_bare Scenario.entryWorks
              ("Here is the analysis:" ++ nl)%string "json" ""
              Scenario.financialJson (start emptyWorld)
              (or_intror eq_refl) eq_refl eq_refl Hnonempty eq_refl eq_refl)
    as [Hfenced _].
  exact Hfenced.
Defined.

Lemma plain_errors_witness :
  let request := Ok {| RequestBody.message := None; RequestBody.type := None |} in
  snd (POST Scenario.entryWorks request (start emptyWorld)) = start emptyWorld.
Proof.
  exact (proj1 (plain_errors_come_from_validation Scenario.entryWorks
                  (Ok {| RequestBody.message := None; RequestBody.type := None |})
                  (start emptyWorld)
                  (NextResponse.json (ErrorBody "Message is required") 400)
                  eq_refl eq_refl)).
Defined.


